(** * The GTA5 / CityScapes sample sources of step3_table3_run.py

    A shallow embedding of the two [Dataset] classes of
    [step3_step4/step3_table3_run.py] and of the Label Codec they call,
    followed by the properties of the specification that concern them. *)

From Stdlib Require Import Ascii String.
From stdpp Require Import gmap strings list fin_maps.

Open Scope Z_scope.

(** ** Python values, exceptions and sequences *)

(** The exceptions the modelled code can raise. *)
Inductive pyerr : Type :=
  | IndexError
  | KeyError
  | FileNotFoundError
  | ValueError.

(** The outcome of a Python expression: a value, or a raised exception. *)
Inductive result (A : Type) : Type :=
  | Ok (a : A)
  | Raise (e : pyerr).
Arguments Ok {A} a.
Arguments Raise {A} e.

(** Sequencing: an exception raised on the way ends the computation. *)
#[global] Instance result_ret : MRet result := fun A a => Ok a.
#[global] Instance result_bind : MBind result := fun A B k r =>
  match r with
  | Ok a => k a
  | Raise e => Raise e
  end.

Definition of_option {A} (e : pyerr) (o : option A) : result A :=
  match o with
  | Some a => Ok a
  | None => Raise e
  end.

(** [for x in xs] with a body that may raise: the first exception wins. *)
Fixpoint rmapM {A B} (f : A -> result B) (xs : list A) : result (list B) :=
  match xs with
  | [] => Ok []
  | x :: xs' => y ← f x; ys ← rmapM f xs'; Ok (y :: ys)
  end.

(** The values a constructor flag such as [ssl] can hold. *)
Inductive pyval : Type :=
  | PyNone
  | PyBool (b : bool)
  | PyInt (z : Z)
  | PyStr (s : string).

(** Python truthiness, as [not x] and [if x] read it. *)
Definition truthy (v : pyval) : bool :=
  match v with
  | PyNone => false
  | PyBool b => b
  | PyInt z => negb (z =? 0)
  | PyStr s => negb (String.eqb s "")
  end.

(** [l[i]] on a Python list: indices [-len l <= i < 0] count from the end,
    anything outside [-len l, len l) raises [IndexError]. *)
Definition py_index {A} (l : list A) (i : Z) : result A :=
  let n := Z.of_nat (length l) in
  let j := if i <? 0 then i + n else i in
  if (0 <=? j) && (j <? n) then of_option IndexError (l !! Z.to_nat j)
  else Raise IndexError.

(** ** Python strings and paths *)

(** [s.split(sep)] for a one-character separator. *)
Fixpoint str_split (sep : Ascii.ascii) (s : string) : list string :=
  match s with
  | EmptyString => [EmptyString]
  | String c r =>
      if Ascii.eqb c sep then EmptyString :: str_split sep r
      else match str_split sep r with
           | [] => [String c EmptyString]
           | p :: ps => String c p :: ps
           end
  end.

(** [needle in hay] on strings. *)
Definition contains (needle hay : string) : bool :=
  match String.index 0 needle hay with
  | Some _ => true
  | None => false
  end.

Definition starts_with_sep (s : string) : bool :=
  match s with
  | String c _ => Ascii.eqb c "/"%char
  | EmptyString => false
  end.

Fixpoint ends_with_sep (s : string) : bool :=
  match s with
  | EmptyString => false
  | String c EmptyString => Ascii.eqb c "/"%char
  | String _ r => ends_with_sep r
  end.

(** [os.path.join(a, b)] (posixpath). *)
Definition path_join (a b : string) : string :=
  if starts_with_sep b then b
  else if String.eqb a "" || ends_with_sep a then a +:+ b
  else a +:+ "/" +:+ b.

(** ** Pictures and arrays *)

(** A picture or a two-dimensional array is the list of its rows. *)
Abbreviation matrix A := (list (list A)).

Definition height {A} (p : matrix A) : nat := length p.

(** The width of a matrix is read off its first row, so it is meaningful
    for a matrix with rows only; the width of a picture that may have no
    rows is kept by [pic_width] below, and shapes are computed from that. *)
Definition width {A} (p : matrix A) : nat :=
  match p with
  | [] => 0%nat
  | r :: _ => length r
  end.

(** Every row has [w] entries and there are [h] rows. *)
Definition has_dims {A} (h w : nat) (p : matrix A) : Prop :=
  length p = h ∧ Forall (fun r => length r = w) p.

(** The element type of a numpy array. *)
Inductive dtype : Type :=
  | UInt8
  | Int64
  | Float32.

Definition is_float (d : dtype) : bool :=
  match d with
  | Float32 => true
  | _ => false
  end.

(** A two-dimensional array of whole numbers with its element type.  Label
    pictures hold category ids (8-bit in the PNG files), which [float32]
    represents exactly, so a [Float32] label array is modelled by the
    integers it holds. *)
Record ndarray2 : Type := NdArray2 {
  nd_dtype : dtype;
  nd_values : matrix Z
}.

(** An element-wise operation on a matrix. *)
Definition map_pixels {A B} (f : A -> B) (p : matrix A) : matrix B :=
  fmap (M:=list) (fmap (M:=list) f) p.

(** The pixel at row [i], column [j] of a matrix, when there is one. *)
Definition at_pos {A} (p : matrix A) (i j : nat) : option A :=
  r ← p !! i; r !! j.

(** A picture as [PIL] holds it, or an array as [numpy] does: its rows and
    its width, which a picture without rows still has ([Image.size] is
    (width, height); the shape of an array of no rows is (0, width)). *)
Record picture (A : Type) : Type := Picture {
  pic_width : nat;
  pic_rows : matrix A
}.
Arguments Picture {A} _ _.
Arguments pic_width {A} _.
Arguments pic_rows {A} _.

Definition pic_height {A} (p : picture A) : nat := length (pic_rows p).

(** The picture whose rows are those of a matrix that has rows. *)
Definition picture_of {A} (m : matrix A) : picture A :=
  {| pic_width := width m; pic_rows := m |}.

(** An element-wise operation keeps the size. *)
Definition map_picture {A B} (f : A -> B) (p : picture A) : picture B :=
  {| pic_width := pic_width p; pic_rows := map_pixels f (pic_rows p) |}.

(** ** Label Codec *)

Module LabelCodec.

(** Modelled from the spec: [dataset.utils.encode_segmap] is imported by
    the source file but is not part of it.  The specification (4.1) gives
    its contract: for every pixel, look up the raw id in the map; unmapped
    raw ids map to the ignore value. *)
Definition encode_pixel (label2train : gmap Z Z) (ignore_value : Z) (raw : Z) : Z :=
  match label2train !! raw with
  | Some train_id => train_id
  | None => ignore_value
  end.

(** Modelled from the spec: [encode(raw_label, label2train_map,
    ignore_value) -> training_label] (4.1), the per-pixel look-up over the
    whole label; the absent [encode_segmap] is what the source calls. *)
Definition encode (raw_label : matrix Z) (label2train : gmap Z Z) (ignore_value : Z)
  : matrix Z :=
  map_pixels (encode_pixel label2train ignore_value) raw_label.

(** Modelled from the spec: the "already-valid training ids" of a map
    (4.1) are the values it maps raw ids to. *)
Definition train_ids (label2train : gmap Z Z) : list Z :=
  (map_to_list label2train).*2.

(** Modelled from the spec: the identity map on a list of ids, the part the
    extension adds; nothing of it is in the source. *)
Definition identity_on (ids : list Z) : gmap Z Z :=
  list_to_map ((fun v => (v, v)) <$> ids).

(** Modelled from the spec: "the same map and an identity extension for
    already-valid training ids" (4.1), with ignore-valued pixels as fixed
    points (8.1).  The identity entries come first in the union, so they
    take precedence over a raw id that is also a training id. *)
Definition identity_extension (label2train : gmap Z Z) (ignore_value : Z) : gmap Z Z :=
  identity_on (ignore_value :: train_ids label2train) ∪ label2train.

(** The map of the specification's end-to-end scenario. *)
Definition map3 : gmap Z Z := <[7:=0]> (<[8:=1]> (<[11:=2]> ∅)).

End LabelCodec.

(** ** torchvision's CenterCrop *)

(** The [size] argument of [CenterCrop]: a number stands for a square. *)
Inductive size_arg : Type :=
  | SizeInt (n : nat)
  | SizePair (h w : nat).

Definition crop_hw (s : size_arg) : nat * nat :=
  match s with
  | SizeInt n => (n, n)
  | SizePair h w => (h, w)
  end.

(** [int(round(n / 2.0))]: Python rounds a half to the even neighbour. *)
Definition round_half (n : Z) : Z :=
  let q := n `div` 2 in
  if Z.even n || Z.even q then q else q + 1.

(** Where output pixel (0, 0) of a centre crop to [th] x [tw] lies in a
    picture of [h] x [w] pixels.  A picture smaller than the crop is first
    padded, by [(th - h) // 2] rows above and [(tw - w) // 2] columns to the
    left, so the offset can be negative. *)
Definition crop_offset (th tw h w : nat) : Z * Z :=
  let pad_top := if (h <? th)%nat then (Z.of_nat th - Z.of_nat h) `div` 2 else 0 in
  let pad_left := if (w <? tw)%nat then (Z.of_nat tw - Z.of_nat w) `div` 2 else 0 in
  let h' := Z.of_nat (max h th) in
  let w' := Z.of_nat (max w tw) in
  (round_half (h' - Z.of_nat th) - pad_top, round_half (w' - Z.of_nat tw) - pad_left).

(** The pixel at integer coordinates, [fill] outside the picture. *)
Definition pixel_or {A} (fill : A) (p : matrix A) (i j : Z) : A :=
  if (0 <=? i) && (0 <=? j) then default fill (at_pos p (Z.to_nat i) (Z.to_nat j))
  else fill.

(** The rectangle of [th] x [tw] pixels whose corner is at [off]. *)
Definition crop_at {A} (fill : A) (off : Z * Z) (th tw : nat) (p : matrix A) : matrix A :=
  (fun i => (fun j => pixel_or fill p (off.1 + Z.of_nat i) (off.2 + Z.of_nat j))
              <$> seq 0 tw) <$> seq 0 th.

(** [CenterCrop(size)(p)] of torchvision (the version that pads a picture
    smaller than the crop): the rectangle depends on the size of [p] and on
    [size] only; padding pixels are [fill] (0). *)
Definition center_crop {A} (fill : A) (size : size_arg) (p : matrix A) : matrix A :=
  let '(th, tw) := crop_hw size in
  crop_at fill (crop_offset th tw (height p) (width p)) th tw p.

(** The same on a picture, as [__getitem__] calls it: the rectangle is
    placed by the size the picture reports, and the result is as wide as
    the crop also when it has no rows. *)
Definition CenterCrop {A} (fill : A) (size : size_arg) (p : picture A) : picture A :=
  {| pic_width := (crop_hw size).2;
     pic_rows :=
       crop_at fill
         (crop_offset (crop_hw size).1 (crop_hw size).2 (pic_height p) (pic_width p))
         (crop_hw size).1 (crop_hw size).2 (pic_rows p) |}.

(** ** Files *)

(** A pixel of a picture in mode RGB. *)
Definition rgb : Type := Z * Z * Z.

(** What the program reads: [open(path)] iterated line by line (every line
    with its terminator), [json.load(open(path))] restricted to its
    entries that are id maps, [Image.open(path).convert('RGB')], and
    [Image.open(path)] for a one-channel label picture.  [None] is a
    missing file; a file that is there and cannot be parsed or decoded is
    not modelled. *)
Record World : Type := {
  text_lines : string -> option (list string);
  json_docs : string -> option (gmap string (gmap Z Z));
  rgb_pictures : string -> option (picture rgb);
  label_pictures : string -> option (picture Z)
}.

(** An entry of [self.files]. *)
Record FileEntry : Type := {
  fe_image : string;
  fe_label : string;
  fe_name : string
}.

(** ** The two datasets *)

Section Datasets.

(** Image arithmetic is kept abstract: [float32] is the element type of
    the image array, [scalar] that of [mean], [f32_of_byte] the conversion
    done by [np.asarray(image, np.float32)] and [isub x m] is [x -= m]. *)
Context {float32 scalar : Type}.
Variable f32_of_byte : Z -> float32.
Variable isub : float32 -> scalar -> float32.

(** The state of the random generator a transform draws from. *)
Context {RNG : Type}.

(** [dataset.utils.encode_segmap], imported by the source file. *)
Variable encode_segmap : ndarray2 -> gmap Z Z -> Z -> ndarray2.

(** A paired transform: called as [transform(image, label)]. *)
Definition transform_t : Type :=
  RNG -> picture rgb -> picture Z -> picture rgb * picture Z.

(** An image array of shape (H, W, 3): the last axis is a triple. *)
Definition hwc : Type := picture (float32 * float32 * float32).

(** What [__getitem__] returns: the image as three planes (C, H, W),
    the label, [np.array(size)] and the name. *)
Record Sample : Type := {
  s_image : list (matrix float32);
  s_label : ndarray2;
  s_size : nat * nat * nat;
  s_name : string
}.

(** [np.asarray(image, np.float32)] on an RGB picture. *)
Definition asarray_rgb (p : picture rgb) : hwc :=
  map_picture (fun '(r, g, b) => (f32_of_byte r, f32_of_byte g, f32_of_byte b)) p.

(** [np.asarray(label, np.float32)] on a one-channel picture. *)
Definition asarray_label (p : picture Z) : ndarray2 :=
  {| nd_dtype := Float32; nd_values := pic_rows p |}.

(** [image.shape]. *)
Definition shape3 (a : hwc) : nat * nat * nat := (pic_height a, pic_width a, 3%nat).

(** [image[:, :, ::-1]]. *)
Definition reverse_channels (a : hwc) : hwc :=
  map_picture (fun '(c0, c1, c2) => (c2, c1, c0)) a.

(** [mean] broadcast against the last axis, of length 3. *)
Definition broadcast3 (mean : list scalar) : result (scalar * scalar * scalar) :=
  match mean with
  | [m] => Ok (m, m, m)
  | [m0; m1; m2] => Ok (m0, m1, m2)
  | _ => Raise ValueError
  end.

(** [image -= mean]. *)
Definition subtract_mean (a : hwc) (mean : list scalar) : result hwc :=
  m ← broadcast3 mean;
  Ok (map_picture (fun '(c0, c1, c2) => (isub c0 m.1.1, isub c1 m.1.2, isub c2 m.2)) a).

(** [image.transpose((2, 0, 1))]. *)
Definition transpose_201 (a : hwc) : list (matrix float32) :=
  [map_pixels (fun c => c.1.1) (pic_rows a); map_pixels (fun c => c.1.2) (pic_rows a);
   map_pixels (fun c => c.2) (pic_rows a)].

(** [if self.transform is not None: image, label = self.transform(image, label)]. *)
Definition apply_transform (transform : option transform_t) (g : RNG)
    (image : picture rgb) (label : picture Z) : picture rgb * picture Z :=
  match transform with
  | Some t => t g image label
  | None => (image, label)
  end.

(** The steps both classes end with, from [size = image.shape] on. *)
Definition finish (image : hwc) (label : ndarray2) (mean : list scalar) (name : string)
  : result Sample :=
  let size := shape3 image in
  let image := reverse_channels image in
  image ← subtract_mean image mean;
  let image := transpose_201 image in
  Ok {| s_image := image; s_label := label; s_size := size; s_name := name |}.

(** *** GTA5 *)

Record GTA5 : Type := {
  gta5_root : string;
  gta5_crop_size : size_arg;
  gta5_transform : option transform_t;
  gta5_ignore_index : Z;
  gta5_mean : list scalar;
  gta5_files : list FileEntry;
  gta5_image_dir : string;
  gta5_label_dir : string;
  gta5_img_ids : list string;
  gta5_info : gmap string (gmap Z Z);
  gta5_class_mapping : gmap Z Z
}.

(** [GTA5.__init__]. *)
Definition GTA5_init (w : World) (root : string) (mean : list scalar)
    (crop_size : size_arg) (transform : option transform_t)
    (max_iters : option Z) (ignore_index : Z) : result GTA5 :=
  let image_dir := path_join root "images/" in
  let label_dir := path_join root "labels/" in
  let file_list := path_join root "train.txt" in
  lines ← of_option FileNotFoundError (text_lines w file_list);
  img_ids ← rmapM (fun line => py_index (str_split "." line) 0) lines;
  info ← of_option FileNotFoundError (json_docs w "./data/GTA5/info.json");
  class_mapping ← of_option KeyError (info !! "label2train");
  let files := (fun name => {| fe_image := image_dir +:+ name +:+ ".png";
                               fe_label := label_dir +:+ name +:+ ".png";
                               fe_name := name |}) <$> img_ids in
  Ok {| gta5_root := root; gta5_crop_size := crop_size; gta5_transform := transform;
        gta5_ignore_index := ignore_index; gta5_mean := mean; gta5_files := files;
        gta5_image_dir := image_dir; gta5_label_dir := label_dir;
        gta5_img_ids := img_ids; gta5_info := info;
        gta5_class_mapping := class_mapping |}.

(** [GTA5.__len__]. *)
Definition GTA5_len (self : GTA5) : nat := length (gta5_files self).

(** [GTA5.__getitem__]. *)
Definition GTA5_getitem (w : World) (g : RNG) (self : GTA5) (index : Z) : result Sample :=
  file ← py_index (gta5_files self) index;
  image ← of_option FileNotFoundError (rgb_pictures w (fe_image file));
  label ← of_option FileNotFoundError (label_pictures w (fe_label file));
  let name := fe_name file in
  let '(image, label) := apply_transform (gta5_transform self) g image label in
  let image := CenterCrop (0, 0, 0) (gta5_crop_size self) image in
  let label := CenterCrop 0 (gta5_crop_size self) label in
  let image := asarray_rgb image in
  let label := asarray_label label in
  let label := encode_segmap label (gta5_class_mapping self) (gta5_ignore_index self) in
  finish image label (gta5_mean self) name.

(** *** CityScapes *)

Record CityScapes : Type := {
  cs_root : string;
  cs_mean : list scalar;
  cs_crop_size : size_arg;
  cs_transform : option transform_t;
  cs_train : bool;
  cs_ignore_index : Z;
  cs_files : list FileEntry;
  cs_set : string;
  cs_ssl : pyval;
  cs_image_dir : string;
  cs_label_dir : string;
  cs_img_ids : list string;
  cs_info : gmap string (gmap Z Z);
  cs_class_mapping : gmap Z Z
}.

(** [line.split('/')[0] + '_' + line.split('_')[1] + '_' + line.split('_')[2]]. *)
Definition cs_img_id (line : string) : result string :=
  a ← py_index (str_split "/" line) 0;
  b ← py_index (str_split "_" line) 1;
  c ← py_index (str_split "_" line) 2;
  Ok (a +:+ "_" +:+ b +:+ "_" +:+ c).

(** [CityScapes.__init__]. *)
Definition CityScapes_init (w : World) (root : string) (mean : list scalar)
    (crop_size : size_arg) (transform : option transform_t) (train : bool)
    (max_iters : option Z) (ignore_index : Z) (ssl : pyval) : result CityScapes :=
  let set := if train then "train" else "val" in
  let image_dir := path_join root "images/" in
  let label_dir := path_join root "labels/" in
  let file_list := if train then path_join root "train.txt" else path_join root "val.txt" in
  lines ← of_option FileNotFoundError (text_lines w file_list);
  img_ids ← rmapM cs_img_id lines;
  info ← of_option FileNotFoundError (json_docs w "./data/cityscapes/info.json");
  class_mapping ← of_option KeyError (info !! "label2train");
  let files := (fun name => {| fe_image := image_dir +:+ name +:+ "_leftImg8bit.png";
                               fe_label := label_dir +:+ name +:+ "_gtFine_labelIds.png";
                               fe_name := name |}) <$> img_ids in
  Ok {| cs_root := root; cs_mean := mean; cs_crop_size := crop_size;
        cs_transform := transform; cs_train := train; cs_ignore_index := ignore_index;
        cs_files := files; cs_set := set; cs_ssl := ssl;
        cs_image_dir := image_dir; cs_label_dir := label_dir;
        cs_img_ids := img_ids; cs_info := info; cs_class_mapping := class_mapping |}.

(** [CityScapes.__len__]. *)
Definition CityScapes_len (self : CityScapes) : nat := length (cs_files self).

(** [CityScapes.__getitem__]. *)
Definition CityScapes_getitem (w : World) (g : RNG) (self : CityScapes) (index : Z)
  : result Sample :=
  file ← py_index (cs_files self) index;
  image ← of_option FileNotFoundError (rgb_pictures w (fe_image file));
  label ← of_option FileNotFoundError (label_pictures w (fe_label file));
  let name := fe_name file in
  let '(image, label) := apply_transform (cs_transform self) g image label in
  let image := if contains "train" (cs_set self)
               then CenterCrop (0, 0, 0) (cs_crop_size self) image else image in
  let label := if contains "train" (cs_set self)
               then CenterCrop 0 (cs_crop_size self) label else label in
  let image := asarray_rgb image in
  let label := asarray_label label in
  let label := if negb (truthy (cs_ssl self))
               then encode_segmap label (cs_class_mapping self) (cs_ignore_index self)
               else label in
  finish image label (cs_mean self) name.

(** *** What [__getitem__] holds before its last steps *)

(** The picture and the label after the transform and the crop, as
    [GTA5.__getitem__] has them when it converts them to arrays. *)
Definition GTA5_picture (self : GTA5) (g : RNG) (image : picture rgb) (label : picture Z)
  : picture rgb :=
  CenterCrop (0, 0, 0) (gta5_crop_size self)
    (apply_transform (gta5_transform self) g image label).1.

Definition GTA5_raw_label (self : GTA5) (g : RNG) (image : picture rgb) (label : picture Z)
  : ndarray2 :=
  asarray_label (CenterCrop 0 (gta5_crop_size self)
    (apply_transform (gta5_transform self) g image label).2).

(** The same for [CityScapes.__getitem__], which crops in the train set only. *)
Definition CityScapes_picture (self : CityScapes) (g : RNG)
    (image : picture rgb) (label : picture Z) : picture rgb :=
  let image' := (apply_transform (cs_transform self) g image label).1 in
  if contains "train" (cs_set self)
  then CenterCrop (0, 0, 0) (cs_crop_size self) image' else image'.

Definition CityScapes_raw_label (self : CityScapes) (g : RNG)
    (image : picture rgb) (label : picture Z) : ndarray2 :=
  let label' := (apply_transform (cs_transform self) g image label).2 in
  asarray_label (if contains "train" (cs_set self)
                 then CenterCrop 0 (cs_crop_size self) label' else label').

(** The remap step of [CityScapes.__getitem__]: [if not self.ssl: ...]. *)
Definition cs_codec (self : CityScapes) (a : ndarray2) : ndarray2 :=
  if truthy (cs_ssl self) then a
  else encode_segmap a (cs_class_mapping self) (cs_ignore_index self).

(** A codec that returns an array of the size of the one it is given. *)
Definition keeps_dims : Prop :=
  ∀ (a : ndarray2) (m : gmap Z Z) (ign : Z) (h w : nat),
    has_dims h w (nd_values a) -> has_dims h w (nd_values (encode_segmap a m ign)).

(** The files [__getitem__] opens for [index]. *)
Definition opened (w : World) (files : list FileEntry) (index : Z)
    (file : FileEntry) (image : picture rgb) (label : picture Z) : Prop :=
  py_index files index = Ok file ∧
  rgb_pictures w (fe_image file) = Some image ∧
  label_pictures w (fe_label file) = Some label.

(** The image array as the last three steps leave it: plane [c] holds
    channel [2 - c] of the picture minus entry [c] of the mean. *)
Definition photometric (m : scalar * scalar * scalar) (p : picture rgb)
  : list (matrix float32) :=
  [map_pixels (fun px : rgb => isub (f32_of_byte px.2) m.1.1) (pic_rows p);
   map_pixels (fun px : rgb => isub (f32_of_byte px.1.2) m.1.2) (pic_rows p);
   map_pixels (fun px : rgb => isub (f32_of_byte px.1.1) m.2) (pic_rows p)].

(** The same dataset with another [mean]. *)
Definition GTA5_with_mean (mean : list scalar) (self : GTA5) : GTA5 :=
  {| gta5_root := gta5_root self; gta5_crop_size := gta5_crop_size self;
     gta5_transform := gta5_transform self; gta5_ignore_index := gta5_ignore_index self;
     gta5_mean := mean; gta5_files := gta5_files self;
     gta5_image_dir := gta5_image_dir self; gta5_label_dir := gta5_label_dir self;
     gta5_img_ids := gta5_img_ids self; gta5_info := gta5_info self;
     gta5_class_mapping := gta5_class_mapping self |}.

Definition CityScapes_with_mean (mean : list scalar) (self : CityScapes) : CityScapes :=
  {| cs_root := cs_root self; cs_mean := mean; cs_crop_size := cs_crop_size self;
     cs_transform := cs_transform self; cs_train := cs_train self;
     cs_ignore_index := cs_ignore_index self; cs_files := cs_files self;
     cs_set := cs_set self; cs_ssl := cs_ssl self;
     cs_image_dir := cs_image_dir self; cs_label_dir := cs_label_dir self;
     cs_img_ids := cs_img_ids self; cs_info := cs_info self;
     cs_class_mapping := cs_class_mapping self |}.

End Datasets.

(** ** More of the strings, and pictures with rows of one length *)

(** [s.count(c)] for a character. *)
Fixpoint count_char (c : Ascii.ascii) (s : string) : nat :=
  match s with
  | EmptyString => 0%nat
  | String c' r => ((if Ascii.eqb c' c then 1 else 0) + count_char c r)%nat
  end.

(** A picture as [PIL] holds it: every row as wide as the first. *)
Definition rectangular {A} (p : matrix A) : Prop :=
  Forall (fun r => length r = width p) p.

(** ** The datasets seen from each other *)

Section Variants.

Context {scalar RNG : Type}.

(** The same dataset with another map and another ignore index. *)
Definition GTA5_with_codec (class_mapping : gmap Z Z) (ignore_index : Z)
    (self : GTA5 (scalar:=scalar) (RNG:=RNG)) : GTA5 :=
  {| gta5_root := gta5_root self; gta5_crop_size := gta5_crop_size self;
     gta5_transform := gta5_transform self; gta5_ignore_index := ignore_index;
     gta5_mean := gta5_mean self; gta5_files := gta5_files self;
     gta5_image_dir := gta5_image_dir self; gta5_label_dir := gta5_label_dir self;
     gta5_img_ids := gta5_img_ids self; gta5_info := gta5_info self;
     gta5_class_mapping := class_mapping |}.

(** The same dataset with another [ssl], map and ignore index. *)
Definition CityScapes_with_codec (ssl : pyval) (class_mapping : gmap Z Z)
    (ignore_index : Z) (self : CityScapes (scalar:=scalar) (RNG:=RNG)) : CityScapes :=
  {| cs_root := cs_root self; cs_mean := cs_mean self; cs_crop_size := cs_crop_size self;
     cs_transform := cs_transform self; cs_train := cs_train self;
     cs_ignore_index := ignore_index; cs_files := cs_files self;
     cs_set := cs_set self; cs_ssl := ssl;
     cs_image_dir := cs_image_dir self; cs_label_dir := cs_label_dir self;
     cs_img_ids := cs_img_ids self; cs_info := cs_info self;
     cs_class_mapping := class_mapping |}.

(** The same dataset with another crop size. *)
Definition GTA5_with_crop_size (crop_size : size_arg)
    (self : GTA5 (scalar:=scalar) (RNG:=RNG)) : GTA5 :=
  {| gta5_root := gta5_root self; gta5_crop_size := crop_size;
     gta5_transform := gta5_transform self; gta5_ignore_index := gta5_ignore_index self;
     gta5_mean := gta5_mean self; gta5_files := gta5_files self;
     gta5_image_dir := gta5_image_dir self; gta5_label_dir := gta5_label_dir self;
     gta5_img_ids := gta5_img_ids self; gta5_info := gta5_info self;
     gta5_class_mapping := gta5_class_mapping self |}.

(** The fields a [CityScapes] object shares with a [GTA5] one. *)
Definition as_GTA5 (self : CityScapes (scalar:=scalar) (RNG:=RNG)) : GTA5 :=
  {| gta5_root := cs_root self; gta5_crop_size := cs_crop_size self;
     gta5_transform := cs_transform self; gta5_ignore_index := cs_ignore_index self;
     gta5_mean := cs_mean self; gta5_files := cs_files self;
     gta5_image_dir := cs_image_dir self; gta5_label_dir := cs_label_dir self;
     gta5_img_ids := cs_img_ids self; gta5_info := cs_info self;
     gta5_class_mapping := cs_class_mapping self |}.

End Variants.

(** ** The data loaders of [main] *)

Module Main.

Section Loaders.

Context {scalar RNG : Type}.

(** The options [main] reads between "Define data loaders" and the call of
    [train]. *)
Record Options : Type := {
  source_dataroot : string;
  target_dataroot : string;
  mean : list scalar;
  mean_prep : list scalar;
  crop_size_source : size_arg;
  crop_size_target : size_arg;
  max_iters : option Z;
  ssl : pyval;
  batch_size : Z;
  batch_size_val : Z;
  is_train : bool;
  use_st : bool
}.

(** [DataLoader(dataset, batch_size=..., shuffle=...)], as constructed. *)
Record DataLoader (D : Type) : Type := {
  dl_dataset : D;
  dl_batch_size : Z;
  dl_shuffle : bool
}.
Arguments dl_dataset {D} _.
Arguments dl_batch_size {D} _.
Arguments dl_shuffle {D} _.

(** The three loaders [main] hands to [train]. *)
Record Loaders : Type := {
  source_train_loader : DataLoader (GTA5 (scalar:=scalar) (RNG:=RNG));
  target_train_loader : DataLoader (CityScapes (scalar:=scalar) (RNG:=RNG));
  val_loader : DataLoader (CityScapes (scalar:=scalar) (RNG:=RNG))
}.

(** [main] from "Define data loaders" to the arguments of [train];
    [transform] is the [t.Compose] object, whose module is imported. *)
Definition main_loaders (w : World) (transform : transform_t (RNG:=RNG))
    (args : Options) : result Loaders :=
  gta5_train_dataset ←
    GTA5_init w (source_dataroot args) (mean args) (crop_size_source args)
      (Some transform) (max_iters args) 255;
  cityscapes_val_dataset ←
    CityScapes_init w (target_dataroot args) (mean args) (crop_size_target args)
      None false (max_iters args) 255 (ssl args);
  let gta5_train_loader :=
    {| dl_dataset := gta5_train_dataset; dl_batch_size := batch_size args;
       dl_shuffle := true |} in
  let cityscapes_val_loader :=
    {| dl_dataset := cityscapes_val_dataset; dl_batch_size := batch_size_val args;
       dl_shuffle := false |} in
  let source_train_loader := gta5_train_loader in
  let target_train_loader := cityscapes_val_loader in
  let val_loader := cityscapes_val_loader in
  let test_loader := cityscapes_val_loader in
  let mean := if use_st args then mean_prep args else mean args in
  let '(source_train_loader, val_loader, test_loader) :=
    if is_train args
    then (gta5_train_loader, cityscapes_val_loader, test_loader)
    else (source_train_loader, val_loader, cityscapes_val_loader) in
  Ok {| source_train_loader := source_train_loader;
        target_train_loader := target_train_loader;
        val_loader := val_loader |}.

(** The same options but for the four that are named. *)
Definition with_options (is_train0 use_st0 : bool) (mean_prep0 : list scalar)
    (crop_size_target0 : size_arg) (args : Options) : Options :=
  {| source_dataroot := source_dataroot args; target_dataroot := target_dataroot args;
     mean := mean args; mean_prep := mean_prep0;
     crop_size_source := crop_size_source args; crop_size_target := crop_size_target0;
     max_iters := max_iters args; ssl := ssl args;
     batch_size := batch_size args; batch_size_val := batch_size_val args;
     is_train := is_train0; use_st := use_st0 |}.

End Loaders.

Arguments dl_dataset {D} _.
Arguments dl_batch_size {D} _.
Arguments dl_shuffle {D} _.

End Main.

(** ** A small world to run the code in *)

Module Fixture.

(** Whole-number arithmetic in place of [float32]. *)
Definition of_byte (z : Z) : Z := z.
Definition sub (x m : Z) : Z := x - m.

(** The Label Codec applied to the values of an array, whose element type
    is kept. *)
Definition encode_array (a : ndarray2) (m : gmap Z Z) (ign : Z) : ndarray2 :=
  {| nd_dtype := nd_dtype a; nd_values := LabelCodec.encode (nd_values a) m ign |}.

Definition nl : string := String (ascii_of_nat 10) "".

Definition grey (v : Z) : rgb := (v, v + 1, v + 2).

Definition picture4 : matrix rgb :=
  [[grey 10; grey 20; grey 30; grey 40];
   [grey 50; grey 60; grey 70; grey 80];
   [grey 90; grey 100; grey 110; grey 120];
   [grey 130; grey 140; grey 150; grey 160]].

Definition label4 : matrix Z :=
  [[7; 7; 8; 8]; [7; 8; 11; 8]; [9; 11; 9; 8]; [9; 9; 9; 9]].

Definition label3 : matrix Z :=
  [[7; 8; 11]; [9; 7; 8]; [11; 9; 7]].

Definition info : gmap string (gmap Z Z) := {[ "label2train" := LabelCodec.map3 ]}.

Fixpoint lookup_path {A} (table : list (string * A)) (path : string) : option A :=
  match table with
  | [] => None
  | (k, v) :: rest => if String.eqb k path then Some v else lookup_path rest path
  end.

Definition world : World := {|
  text_lines := lookup_path
    [("gta/train.txt", ["00001.png" +:+ nl; "00002.png" +:+ nl]);
     ("none/train.txt", []);
     ("none/val.txt", []);
     ("city/train.txt", ["aachen/aachen_000000_000019_leftImg8bit.png" +:+ nl]);
     ("city/val.txt", ["bonn/bonn_000001_000019_leftImg8bit.png" +:+ nl;
                       "bonn/bonn_000002_000019_leftImg8bit.png" +:+ nl]);
     ("bad/val.txt", ["bonn" +:+ nl])];
  json_docs := lookup_path
    [("./data/GTA5/info.json", info); ("./data/cityscapes/info.json", info)];
  rgb_pictures := lookup_path
    [("gta/images/00001.png", picture_of picture4);
     ("gta/images/00002.png", picture_of picture4);
     ("city/images/aachen_000000_000019_leftImg8bit.png", picture_of picture4);
     ("city/images/bonn_000001_000019_leftImg8bit.png", picture_of picture4);
     ("city/images/bonn_000002_000019_leftImg8bit.png", picture_of picture4)];
  label_pictures := lookup_path
    [("gta/labels/00001.png", picture_of label4);
     ("gta/labels/00002.png", picture_of label3);
     ("city/labels/aachen_000000_000019_gtFine_labelIds.png", picture_of label4);
     ("city/labels/bonn_000001_000019_gtFine_labelIds.png", picture_of label4);
     ("city/labels/bonn_000002_000019_gtFine_labelIds.png", picture_of label3)]
|}.

Definition mean : list Z := [104; 117; 123].

(** A transform that mirrors picture and label, whatever is drawn. *)
Definition mirror : transform_t (RNG:=unit) :=
  fun _ image label =>
    (Picture (pic_width image) (reverse <$> pic_rows image),
     Picture (pic_width label) (reverse <$> pic_rows label)).

Definition gta5_getitem :=
  GTA5_getitem (RNG:=unit) of_byte sub encode_array world tt.

Definition cityscapes_getitem :=
  CityScapes_getitem (RNG:=unit) of_byte sub encode_array world tt.

(** The datasets as [main] builds them: GTA5 with a transform, CityScapes
    with [train=False] and without one. *)
Definition gta5_init : result GTA5 :=
  GTA5_init world "gta" mean (SizePair 2 2) (Some mirror) None 255.

Definition cityscapes_init (train : bool) (ssl : pyval)
  : result (CityScapes (RNG:=unit)) :=
  CityScapes_init world "city" mean (SizePair 2 2) None train None 255 ssl.

(** What the constructors return. *)
Definition gta5 : GTA5 := {|
  gta5_root := "gta"; gta5_crop_size := SizePair 2 2; gta5_transform := Some mirror;
  gta5_ignore_index := 255; gta5_mean := mean;
  gta5_files :=
    [{| fe_image := "gta/images/00001.png"; fe_label := "gta/labels/00001.png";
        fe_name := "00001" |};
     {| fe_image := "gta/images/00002.png"; fe_label := "gta/labels/00002.png";
        fe_name := "00002" |}];
  gta5_image_dir := "gta/images/"; gta5_label_dir := "gta/labels/";
  gta5_img_ids := ["00001"; "00002"]; gta5_info := info;
  gta5_class_mapping := LabelCodec.map3 |}.

Definition cityscapes_val (ssl : pyval) : CityScapes (RNG:=unit) := {|
  cs_root := "city"; cs_mean := mean; cs_crop_size := SizePair 2 2;
  cs_transform := None; cs_train := false; cs_ignore_index := 255;
  cs_files :=
    [{| fe_image := "city/images/bonn_000001_000019_leftImg8bit.png";
        fe_label := "city/labels/bonn_000001_000019_gtFine_labelIds.png";
        fe_name := "bonn_000001_000019" |};
     {| fe_image := "city/images/bonn_000002_000019_leftImg8bit.png";
        fe_label := "city/labels/bonn_000002_000019_gtFine_labelIds.png";
        fe_name := "bonn_000002_000019" |}];
  cs_set := "val"; cs_ssl := ssl;
  cs_image_dir := "city/images/"; cs_label_dir := "city/labels/";
  cs_img_ids := ["bonn_000001_000019"; "bonn_000002_000019"];
  cs_info := info; cs_class_mapping := LabelCodec.map3 |}.

Definition cityscapes_train (ssl : pyval) : CityScapes (RNG:=unit) := {|
  cs_root := "city"; cs_mean := mean; cs_crop_size := SizePair 2 2;
  cs_transform := None; cs_train := true; cs_ignore_index := 255;
  cs_files :=
    [{| fe_image := "city/images/aachen_000000_000019_leftImg8bit.png";
        fe_label := "city/labels/aachen_000000_000019_gtFine_labelIds.png";
        fe_name := "aachen_000000_000019" |}];
  cs_set := "train"; cs_ssl := ssl;
  cs_image_dir := "city/images/"; cs_label_dir := "city/labels/";
  cs_img_ids := ["aachen_000000_000019"];
  cs_info := info; cs_class_mapping := LabelCodec.map3 |}.

(** Options for [main] over the small world. *)
Definition args (is_train use_st : bool) (crop_size_target : size_arg) : Main.Options := {|
  Main.source_dataroot := "gta"; Main.target_dataroot := "city";
  Main.mean := mean; Main.mean_prep := [0; 0; 0];
  Main.crop_size_source := SizePair 2 2; Main.crop_size_target := crop_size_target;
  Main.max_iters := Some 250000; Main.ssl := PyBool false;
  Main.batch_size := 4; Main.batch_size_val := 1;
  Main.is_train := is_train; Main.use_st := use_st |}.

(** A second codec, which turns every label into one pixel. *)
Definition blank_codec (a : ndarray2) (m : gmap Z Z) (ign : Z) : ndarray2 :=
  {| nd_dtype := Int64; nd_values := [[ign]] |}.

(** The small world with its label files taken away. *)
Definition world_without_labels : World := {|
  text_lines := text_lines world; json_docs := json_docs world;
  rgb_pictures := rgb_pictures world; label_pictures := fun _ => None |}.

End Fixture.

(** * Properties *)

(** ** Matrices *)

Lemma at_pos_map_pixels {A B} (f : A -> B) (p : matrix A) (i j : nat) :
  at_pos (map_pixels f p) i j = f <$> at_pos p i j.
Proof.
  unfold at_pos, map_pixels. rewrite list_lookup_fmap.
  destruct (p !! i) as [r|]; simpl; [|done].
  by rewrite list_lookup_fmap.
Qed.

Lemma map_pixels_compose {A B C} (f : A -> B) (g : B -> C) (p : matrix A) :
  map_pixels g (map_pixels f p) = map_pixels (g ∘ f) p.
Proof.
  unfold map_pixels. rewrite <- list_fmap_compose.
  apply list_fmap_ext; intros _ r _. simpl. by rewrite <- list_fmap_compose.
Qed.

Lemma map_pixels_ext {A B} (f g : A -> B) (p : matrix A) :
  (∀ x, f x = g x) -> map_pixels f p = map_pixels g p.
Proof.
  intros Hfg. unfold map_pixels.
  apply list_fmap_ext; intros _ r _. apply list_fmap_ext; intros _ x _. apply Hfg.
Qed.

Lemma has_dims_map_pixels {A B} (f : A -> B) (h w : nat) (p : matrix A) :
  has_dims h w p -> has_dims h w (map_pixels f p).
Proof.
  intros [Hh Hw]. unfold map_pixels. split; [by rewrite length_fmap|].
  apply Forall_fmap. eapply Forall_impl; [exact Hw|].
  intros r Hr. simpl. by rewrite length_fmap.
Qed.

(** ** Label Codec *)

Module LabelCodecFacts.
Import LabelCodec.

Lemma encode_at (raw : matrix Z) (m : gmap Z Z) (ign : Z) (i j : nat) :
  at_pos (encode raw m ign) i j = encode_pixel m ign <$> at_pos raw i j.
Proof. apply at_pos_map_pixels. Qed.

Lemma encode_has_dims (raw : matrix Z) (m : gmap Z Z) (ign : Z) (h w : nat) :
  has_dims h w raw -> has_dims h w (encode raw m ign).
Proof. apply has_dims_map_pixels. Qed.

Lemma identity_on_lookup (ids : list Z) (v : Z) :
  v ∈ ids -> identity_on ids !! v = Some v.
Proof.
  unfold identity_on. induction ids as [|a ids IH]; intros Hin.
  - by apply elem_of_nil in Hin.
  - rewrite fmap_cons. simpl. destruct (decide (a = v)) as [->|Hne].
    + apply lookup_insert_eq.
    + rewrite lookup_insert_ne by done. apply IH.
      apply elem_of_cons in Hin as [Heq|Hin]; [congruence|done].
Qed.

Lemma train_ids_elem (m : gmap Z Z) (raw v : Z) :
  m !! raw = Some v -> v ∈ train_ids m.
Proof.
  intros Hm. unfold train_ids. apply list_elem_of_fmap.
  exists (raw, v). split; [done|]. by apply elem_of_map_to_list.
Qed.

(** Under the identity extension every id in the list is its own code. *)
Lemma extension_fixes (m : gmap Z Z) (ign v : Z) :
  v ∈ ign :: train_ids m -> encode_pixel (identity_extension m ign) ign v = v.
Proof.
  intros Hin. unfold encode_pixel, identity_extension.
  by rewrite (lookup_union_Some_l _ _ _ v (identity_on_lookup _ _ Hin)).
Qed.

Lemma encode_pixel_in (m : gmap Z Z) (ign raw : Z) :
  encode_pixel m ign raw ∈ ign :: train_ids m.
Proof.
  unfold encode_pixel. destruct (m !! raw) as [v|] eqn:Hm.
  - apply list_elem_of_further. by eapply train_ids_elem.
  - apply list_elem_of_here.
Qed.

(** C1.  With the map {7:0, 8:1, 11:2} and ignore value 255, a pixel of
    the raw label that holds 7 is 0 at the same position of the encoded
    label, 8 is 1, 11 is 2, and 9, which the map does not have, is 255.
    For every map, a raw id that the map does not have is encoded as the
    ignore value; [encode] is a total function, so nothing is raised. *)
Theorem encode_scenario (raw : matrix Z) (i j : nat) (x : Z) :
  at_pos raw i j = Some x ->
  (x = 7 -> at_pos (encode raw map3 255) i j = Some 0) ∧
  (x = 8 -> at_pos (encode raw map3 255) i j = Some 1) ∧
  (x = 11 -> at_pos (encode raw map3 255) i j = Some 2) ∧
  (x = 9 -> at_pos (encode raw map3 255) i j = Some 255) ∧
  (∀ (m : gmap Z Z) (ign : Z),
     m !! x = None -> at_pos (encode raw m ign) i j = Some ign).
Proof.
  intros Hx.
  assert (∀ m ign, at_pos (encode raw m ign) i j = Some (encode_pixel m ign x)) as Hat.
  { intros m ign. by rewrite encode_at, Hx. }
  repeat split.
  - intros ->. by rewrite Hat.
  - intros ->. by rewrite Hat.
  - intros ->. by rewrite Hat.
  - intros ->. by rewrite Hat.
  - intros m ign Hm. rewrite Hat. unfold encode_pixel. by rewrite Hm.
Qed.

(** The scenario of the specification, run. *)
Example encode_scenario_run :
  encode [[7; 8]; [11; 9]] map3 255 = [[0; 1]; [2; 255]].
Proof. reflexivity. Qed.

Lemma encode_scenario_witness :
  at_pos [[7; 8]; [11; 9]] 1 1 = Some 9 ∧
  at_pos (encode [[7; 8]; [11; 9]] map3 255) 1 1 = Some 255.
Proof.
  split; [reflexivity|].
  apply (encode_scenario [[7; 8]; [11; 9]] 1 1 9); reflexivity.
Defined.

(** C6.  Encoding an encoded label again, with the map extended by the
    identity on the ignore value and on the training ids, gives the encoded
    label back; under that extension the ignore value and every training
    id are fixed points. *)
Theorem encode_idempotent (m : gmap Z Z) (ign : Z) :
  (∀ raw : matrix Z,
     encode (encode raw m ign) (identity_extension m ign) ign = encode raw m ign) ∧
  encode_pixel (identity_extension m ign) ign ign = ign ∧
  (∀ raw v : Z, m !! raw = Some v ->
     encode_pixel (identity_extension m ign) ign v = v).
Proof.
  split; [|split].
  - intros raw. unfold encode. rewrite map_pixels_compose.
    apply map_pixels_ext. intros x. simpl.
    apply extension_fixes, encode_pixel_in.
  - apply extension_fixes, list_elem_of_here.
  - intros raw v Hm. apply extension_fixes, list_elem_of_further.
    by eapply train_ids_elem.
Qed.

Lemma encode_idempotent_witness :
  encode (encode [[7; 8]; [11; 9]] map3 255) (identity_extension map3 255) 255
  = [[0; 1]; [2; 255]].
Proof.
  rewrite (proj1 (encode_idempotent map3 255) [[7; 8]; [11; 9]]).
  reflexivity.
Defined.

(** Without the extension a second pass is not the identity: 0 is a
    training id of the scenario map but not one of its raw ids. *)
Example encode_twice_plain :
  encode (encode [[7; 8]; [11; 9]] map3 255) map3 255 = [[255; 255]; [255; 255]].
Proof. reflexivity. Qed.

End LabelCodecFacts.

(** ** Python indexing *)

Lemma py_index_out_of_range {A} (l : list A) (i : Z) :
  i < - Z.of_nat (length l) ∨ Z.of_nat (length l) <= i -> py_index l i = Raise IndexError.
Proof.
  intros Hi. unfold py_index.
  destruct (i <? 0) eqn:Hneg;
    [apply Z.ltb_lt in Hneg | apply Z.ltb_ge in Hneg].
  - replace (0 <=? i + Z.of_nat (length l)) with false; [done|].
    symmetry. apply Z.leb_gt. lia.
  - replace (i <? Z.of_nat (length l)) with false; [by rewrite andb_false_r|].
    symmetry. apply Z.ltb_ge. lia.
Qed.

Lemma py_index_negative {A} (l : list A) (i : Z) :
  - Z.of_nat (length l) <= i < 0 -> py_index l i = py_index l (i + Z.of_nat (length l)).
Proof.
  intros Hi. unfold py_index.
  replace (i <? 0) with true by (symmetry; apply Z.ltb_lt; lia).
  replace (i + Z.of_nat (length l) <? 0) with false by (symmetry; apply Z.ltb_ge; lia).
  done.
Qed.

Lemma py_index_in_range {A} (l : list A) (i : Z) :
  0 <= i < Z.of_nat (length l) -> ∃ x, py_index l i = Ok x ∧ l !! Z.to_nat i = Some x.
Proof.
  intros Hi. unfold py_index.
  replace (i <? 0) with false by (symmetry; apply Z.ltb_ge; lia).
  replace (0 <=? i) with true by (symmetry; apply Z.leb_le; lia).
  replace (i <? Z.of_nat (length l)) with true by (symmetry; apply Z.ltb_lt; lia).
  simpl. destruct (lookup_lt_is_Some_2 l (Z.to_nat i)) as [x Hx]; [lia|].
  exists x. by rewrite Hx.
Qed.

Lemma py_index_nil {A} (i : Z) : py_index (@nil A) i = Raise IndexError.
Proof. apply py_index_out_of_range. simpl. lia. Qed.

Lemma rmapM_length {A B} (f : A -> result B) (xs : list A) (ys : list B) :
  rmapM f xs = Ok ys -> length ys = length xs.
Proof.
  revert ys. induction xs as [|x xs IH]; intros ys; simpl.
  - by intros [= <-].
  - destruct (f x) as [y|e]; simpl; [|done].
    destruct (rmapM f xs) as [ys'|e]; simpl; [|done].
    intros [= <-]. simpl. f_equal. by apply IH.
Qed.

Lemma rmapM_total {A B} (f : A -> result B) (xs : list A) :
  (∀ x, ∃ y, f x = Ok y) -> ∃ ys, rmapM f xs = Ok ys.
Proof.
  intros Hf. induction xs as [|x xs [ys IH]]; simpl; [by eexists|].
  destruct (Hf x) as [y ->]. rewrite IH. simpl. by eexists.
Qed.

Lemma str_split_cons (sep : Ascii.ascii) (s : string) :
  ∃ p ps, str_split sep s = p :: ps.
Proof.
  induction s as [|c r (p & ps & IH)]; simpl; [by eexists _, _|].
  destruct (Ascii.eqb c sep); [by eexists _, _|].
  rewrite IH. by eexists _, _.
Qed.

(** ** Centre crop *)

Lemma crop_at_has_dims {A} (fill : A) (off : Z * Z) (th tw : nat) (p : matrix A) :
  has_dims th tw (crop_at fill off th tw p).
Proof.
  unfold crop_at. split.
  - by rewrite length_fmap, length_seq.
  - apply Forall_fmap, Forall_forall. intros i _. simpl.
    by rewrite length_fmap, length_seq.
Qed.

Lemma center_crop_has_dims {A} (fill : A) (size : size_arg) (p : matrix A) :
  has_dims (crop_hw size).1 (crop_hw size).2 (center_crop fill size p).
Proof.
  unfold center_crop. destruct (crop_hw size) as [th tw]. apply crop_at_has_dims.
Qed.

(** The rectangle is a function of the picture's size alone. *)
Lemma center_crop_rectangle {A B} (fa : A) (fb : B) (size : size_arg)
    (p : matrix A) (q : matrix B) :
  height p = height q -> width p = width q ->
  ∃ off : Z * Z,
    center_crop fa size p = crop_at fa off (crop_hw size).1 (crop_hw size).2 p ∧
    center_crop fb size q = crop_at fb off (crop_hw size).1 (crop_hw size).2 q.
Proof.
  intros Hh Hw. unfold center_crop. destruct (crop_hw size) as [th tw]. simpl.
  exists (crop_offset th tw (height p) (width p)). split; [done|].
  by rewrite Hh, Hw.
Qed.

(** ** Splitting a manifest line *)

Lemma append_empty_r (s : string) : s +:+ "" = s.
Proof.
  induction s as [|c s IH]; [done|].
  change (String c (s +:+ "") = String c s). by rewrite IH.
Qed.

Lemma append_assoc (a b c : string) : (a +:+ b) +:+ c = a +:+ b +:+ c.
Proof.
  induction a as [|x a IH]; [done|].
  change (String x ((a +:+ b) +:+ c) = String x (a +:+ b +:+ c)). by rewrite IH.
Qed.

Lemma str_split_length (sep : Ascii.ascii) (s : string) :
  length (str_split sep s) = S (count_char sep s).
Proof.
  induction s as [|c r IH]; simpl; [done|].
  destruct (Ascii.eqb c sep); simpl; [by rewrite IH|].
  destruct (str_split sep r) as [|p ps]; simpl in *; [done|]. exact IH.
Qed.

Lemma str_split_head (sep : Ascii.ascii) (s p : string) (ps : list string) :
  str_split sep s = p :: ps ->
  count_char sep p = 0%nat ∧
  ((ps = [] ∧ s = p) ∨ (∃ r, s = p +:+ String sep r ∧ str_split sep r = ps)).
Proof.
  revert p ps. induction s as [|c r IH]; simpl; intros p ps Hs.
  - injection Hs as <- <-. split; [done|]. by left.
  - destruct (Ascii.eqb c sep) eqn:Hc.
    + apply Ascii.eqb_eq in Hc as ->. injection Hs as <- <-.
      split; [done|]. right. by exists r.
    + destruct (str_split sep r) as [|q qs] eqn:Hr.
      { pose proof (str_split_length sep r) as Hlen. by rewrite Hr in Hlen. }
      injection Hs as <- <-.
      destruct (IH q qs eq_refl) as (Hq & Hrest). simpl. rewrite Hc. split; [done|].
      destruct Hrest as [(-> & ->)|(r' & -> & Hr')]; [by left|].
      right. by exists r'.
Qed.

Lemma str_split_no_sep (sep : Ascii.ascii) (a : string) :
  count_char sep a = 0%nat -> str_split sep a = [a].
Proof.
  induction a as [|c a IH]; simpl; [done|].
  destruct (Ascii.eqb c sep); simpl; [done|]. intros Ha. by rewrite IH.
Qed.

Lemma str_split_app (sep : Ascii.ascii) (a b : string) :
  count_char sep a = 0%nat ->
  str_split sep (a +:+ String sep b) = a :: str_split sep b.
Proof.
  induction a as [|c a IH]; simpl.
  - intros _. by rewrite Ascii.eqb_refl.
  - destruct (Ascii.eqb c sep); simpl; [done|]. intros Ha. by rewrite IH.
Qed.

Lemma rmapM_lookup {A B} (f : A -> result B) (xs : list A) (ys : list B)
    (i : nat) (x : A) :
  rmapM f xs = Ok ys -> xs !! i = Some x -> ∃ y, f x = Ok y ∧ ys !! i = Some y.
Proof.
  revert ys i. induction xs as [|x0 xs IH]; intros ys i; simpl; [done|].
  destruct (f x0) as [y0|e] eqn:Hf; simpl; [|done].
  destruct (rmapM f xs) as [ys'|e] eqn:Hm; simpl; [|done].
  intros [= <-] Hi. destruct i as [|i]; simpl in *.
  - injection Hi as <-. by exists y0.
  - by apply IH.
Qed.

Lemma rmapM_raises {A B} (f : A -> result B) (xs : list A) (e : pyerr) :
  (∀ x e', f x = Raise e' -> e' = e) ->
  Exists (fun x => ∃ e', f x = Raise e') xs -> rmapM f xs = Raise e.
Proof.
  intros Hf Hex. induction Hex as [x xs (e' & Hx)|x xs Hex IH]; simpl.
  - rewrite Hx. simpl. by rewrite (Hf _ _ Hx).
  - destruct (f x) as [y|e'] eqn:Hx; simpl; [by rewrite IH|].
    by rewrite (Hf _ _ Hx).
Qed.

Lemma rmapM_succeeds {A B} (f : A -> result B) (xs : list A) :
  Forall (fun x => ∃ y, f x = Ok y) xs -> ∃ ys, rmapM f xs = Ok ys.
Proof.
  induction 1 as [|x xs (y & Hx) _ (ys & IH)]; simpl; [by eexists|].
  rewrite Hx. simpl. rewrite IH. simpl. by eexists.
Qed.

Lemma py_index_nat {A} (l : list A) (i : nat) :
  py_index l (Z.of_nat i) = of_option IndexError (l !! i).
Proof.
  unfold py_index.
  replace (Z.of_nat i <? 0) with false by (symmetry; apply Z.ltb_ge; lia).
  replace (0 <=? Z.of_nat i) with true by (symmetry; apply Z.leb_le; lia).
  rewrite Nat2Z.id. simpl.
  destruct (Z.of_nat i <? Z.of_nat (length l)) eqn:Hlt; [done|].
  apply Z.ltb_ge in Hlt. rewrite lookup_ge_None_2 by lia. done.
Qed.

(** The identifier [CityScapes.__init__] makes of a line needs the third
    piece between underscores. *)
Lemma cs_img_id_outcome (line : string) :
  ((count_char "_" line < 2)%nat ∧ cs_img_id line = Raise IndexError) ∨
  ((2 <= count_char "_" line)%nat ∧ ∃ name, cs_img_id line = Ok name).
Proof.
  unfold cs_img_id.
  pose proof (str_split_length "/" line) as Hslash.
  pose proof (str_split_length "_" line) as Hunder.
  rewrite (py_index_nat _ 0), (py_index_nat _ 1), (py_index_nat _ 2).
  destruct (str_split "/" line) as [|a l0]; [done|]. simpl.
  destruct (str_split "_" line) as [|p0 [|p1 [|p2 ps]]]; simpl in *.
  - done.
  - left. split; [lia|done].
  - left. split; [lia|done].
  - right. split; [lia|]. by eexists.
Qed.

(** On a picture whose width is that of its rows, [CenterCrop] cuts the
    rows as [center_crop] does. *)
Lemma CenterCrop_rows {A} (fill : A) (size : size_arg) (p : picture A) :
  pic_width p = width (pic_rows p) ->
  pic_rows (CenterCrop fill size p) = center_crop fill size (pic_rows p).
Proof.
  intros Hw. unfold CenterCrop, center_crop, pic_height, height. simpl.
  destruct (crop_hw size) as [th tw]. simpl. by rewrite Hw.
Qed.

Lemma CenterCrop_has_dims {A} (fill : A) (size : size_arg) (p : picture A) :
  pic_width (CenterCrop fill size p) = (crop_hw size).2 ∧
  has_dims (crop_hw size).1 (crop_hw size).2 (pic_rows (CenterCrop fill size p)).
Proof. split; [done|]. unfold CenterCrop. simpl. apply crop_at_has_dims. Qed.

(** ** The sample sources *)

Section DatasetFacts.

Context {float32 scalar : Type}.
Variable f32_of_byte : Z -> float32.
Variable isub : float32 -> scalar -> float32.
Context {RNG : Type}.
Variable encode_segmap : ndarray2 -> gmap Z Z -> Z -> ndarray2.

Local Abbreviation gta5_get := (GTA5_getitem f32_of_byte isub encode_segmap).
Local Abbreviation cs_get := (CityScapes_getitem f32_of_byte isub encode_segmap).

Lemma photometric_steps (m : scalar * scalar * scalar) (p : picture rgb) :
  transpose_201
    (map_picture (fun '(c0, c1, c2) => (isub c0 m.1.1, isub c1 m.1.2, isub c2 m.2))
       (reverse_channels (asarray_rgb f32_of_byte p)))
  = photometric f32_of_byte isub m p.
Proof.
  unfold transpose_201, photometric, reverse_channels, asarray_rgb, map_picture. simpl.
  rewrite !map_pixels_compose.
  f_equal; [|f_equal; [|f_equal]]; apply map_pixels_ext; by intros [[r g] b].
Qed.

Lemma shape3_asarray (p : picture rgb) :
  shape3 (asarray_rgb f32_of_byte p) = (pic_height p, pic_width p, 3%nat).
Proof.
  unfold shape3, asarray_rgb, map_picture, pic_height, map_pixels. simpl.
  by rewrite length_fmap.
Qed.

Lemma finish_inv (p : picture rgb) (label : ndarray2) (mean : list scalar)
    (name : string) (s : Sample) :
  finish isub (asarray_rgb f32_of_byte p) label mean name = Ok s ->
  ∃ m, broadcast3 mean = Ok m ∧
       s = {| s_image := photometric f32_of_byte isub m p; s_label := label;
              s_size := (pic_height p, pic_width p, 3%nat); s_name := name |}.
Proof.
  unfold finish, subtract_mean. destruct (broadcast3 mean) as [m|e]; simpl; [|done].
  intros [= <-]. exists m. split; [done|].
  by rewrite photometric_steps, shape3_asarray.
Qed.

Lemma GTA5_getitem_inv (w : World) (g : RNG) (self : GTA5) (index : Z) (s : Sample) :
  gta5_get w g self index = Ok s ->
  ∃ file image label,
    opened w (gta5_files self) index file image label ∧
    finish isub (asarray_rgb f32_of_byte (GTA5_picture self g image label))
      (encode_segmap (GTA5_raw_label self g image label)
         (gta5_class_mapping self) (gta5_ignore_index self))
      (gta5_mean self) (fe_name file) = Ok s.
Proof.
  unfold GTA5_getitem, opened, GTA5_picture, GTA5_raw_label.
  destruct (py_index (gta5_files self) index) as [file|e]; simpl; [|done].
  destruct (rgb_pictures w (fe_image file)) as [image|] eqn:Hi; simpl; [|done].
  destruct (label_pictures w (fe_label file)) as [label|] eqn:Hl; simpl; [|done].
  destruct (apply_transform (gta5_transform self) g image label) as [image' label'] eqn:Ht.
  intros Hs. exists file, image, label. by rewrite Ht, Hi, Hl.
Qed.

Lemma CityScapes_getitem_inv (w : World) (g : RNG) (self : CityScapes) (index : Z)
    (s : Sample) :
  cs_get w g self index = Ok s ->
  ∃ file image label,
    opened w (cs_files self) index file image label ∧
    finish isub (asarray_rgb f32_of_byte (CityScapes_picture self g image label))
      (cs_codec encode_segmap self (CityScapes_raw_label self g image label))
      (cs_mean self) (fe_name file) = Ok s.
Proof.
  unfold CityScapes_getitem, opened, CityScapes_picture, CityScapes_raw_label, cs_codec.
  destruct (py_index (cs_files self) index) as [file|e]; simpl; [|done].
  destruct (rgb_pictures w (fe_image file)) as [image|] eqn:Hi; simpl; [|done].
  destruct (label_pictures w (fe_label file)) as [label|] eqn:Hl; simpl; [|done].
  destruct (apply_transform (cs_transform self) g image label) as [image' label'] eqn:Ht.
  intros Hs. exists file, image, label. rewrite Ht, Hi, Hl. simpl.
  destruct (truthy (cs_ssl self)); simpl in *; done.
Qed.

Lemma opened_functional (w : World) (files : list FileEntry) (index : Z)
    (f1 f2 : FileEntry) (i1 i2 : picture rgb) (l1 l2 : picture Z) :
  opened w files index f1 i1 l1 -> opened w files index f2 i2 l2 ->
  f1 = f2 ∧ i1 = i2 ∧ l1 = l2.
Proof.
  intros (Hf1 & Hi1 & Hl1) (Hf2 & Hi2 & Hl2).
  assert (f1 = f2) as <- by congruence.
  split; [done|]. split; congruence.
Qed.

Lemma GTA5_getitem_index (w : World) (g : RNG) (self : GTA5) (i j : Z) :
  py_index (gta5_files self) i = py_index (gta5_files self) j ->
  gta5_get w g self i = gta5_get w g self j.
Proof. intros H. unfold GTA5_getitem. by rewrite H. Qed.

Lemma CityScapes_getitem_index (w : World) (g : RNG) (self : CityScapes) (i j : Z) :
  py_index (cs_files self) i = py_index (cs_files self) j ->
  cs_get w g self i = cs_get w g self j.
Proof. intros H. unfold CityScapes_getitem. by rewrite H. Qed.

Lemma GTA5_getitem_raises (w : World) (g : RNG) (self : GTA5) (i : Z) (e : pyerr) :
  py_index (gta5_files self) i = Raise e -> gta5_get w g self i = Raise e.
Proof. intros H. unfold GTA5_getitem. by rewrite H. Qed.

Lemma CityScapes_getitem_raises (w : World) (g : RNG) (self : CityScapes) (i : Z)
    (e : pyerr) :
  py_index (cs_files self) i = Raise e -> cs_get w g self i = Raise e.
Proof. intros H. unfold CityScapes_getitem. by rewrite H. Qed.

Lemma GTA5_init_inv (w : World) (root : string) (mean : list scalar) (crop : size_arg)
    (tr : option transform_t) (mi : option Z) (ign : Z) (self : GTA5 (RNG:=RNG)) :
  GTA5_init w root mean crop tr mi ign = Ok self ->
  ∃ lines, text_lines w (path_join root "train.txt") = Some lines ∧
           length (gta5_files self) = length lines.
Proof.
  unfold GTA5_init.
  destruct (text_lines w (path_join root "train.txt")) as [lines|]; simpl; [|done].
  destruct (rmapM _ lines) as [ids|e] eqn:Hids; simpl; [|done].
  destruct (json_docs w "./data/GTA5/info.json") as [info|]; simpl; [|done].
  destruct (info !! "label2train") as [cm|]; simpl; [|done].
  intros [= <-]. exists lines. split; [done|]. simpl.
  rewrite length_fmap. by eapply rmapM_length.
Qed.

Lemma CityScapes_init_inv (w : World) (root : string) (mean : list scalar)
    (crop : size_arg) (tr : option transform_t) (train : bool) (mi : option Z)
    (ign : Z) (ssl : pyval) (self : CityScapes (RNG:=RNG)) :
  CityScapes_init w root mean crop tr train mi ign ssl = Ok self ->
  cs_set self = (if train then "train" else "val") ∧
  ∃ lines,
    text_lines w (if train then path_join root "train.txt" else path_join root "val.txt")
      = Some lines ∧
    length (cs_files self) = length lines.
Proof.
  unfold CityScapes_init.
  destruct (text_lines w _) as [lines|]; simpl; [|done].
  destruct (rmapM _ lines) as [ids|e] eqn:Hids; simpl; [|done].
  destruct (json_docs w "./data/cityscapes/info.json") as [info|]; simpl; [|done].
  destruct (info !! "label2train") as [cm|]; simpl; [|done].
  intros [= <-]. simpl. split; [done|]. exists lines. split; [done|].
  rewrite length_fmap. by eapply rmapM_length.
Qed.

(** C2 (as amended).  A dataset built from a manifest without entries has
    length 0 and every index raises [IndexError].  For a dataset of
    length [n], [__getitem__] raises [IndexError] for every index [i >= n]
    and every [i < -n]; an index [-n <= i < 0] is not refused: it is served
    as index [i + n], the way a Python list is indexed. *)
Theorem getitem_index_range (w : World) (g : RNG) :
  (∀ (self : GTA5) (index : Z),
     (index < - Z.of_nat (GTA5_len self) ∨ Z.of_nat (GTA5_len self) <= index ->
      gta5_get w g self index = Raise IndexError) ∧
     (- Z.of_nat (GTA5_len self) <= index < 0 ->
      gta5_get w g self index = gta5_get w g self (index + Z.of_nat (GTA5_len self)))) ∧
  (∀ (self : CityScapes) (index : Z),
     (index < - Z.of_nat (CityScapes_len self) ∨ Z.of_nat (CityScapes_len self) <= index ->
      cs_get w g self index = Raise IndexError) ∧
     (- Z.of_nat (CityScapes_len self) <= index < 0 ->
      cs_get w g self index
      = cs_get w g self (index + Z.of_nat (CityScapes_len self)))) ∧
  (∀ root mean crop tr mi ign (self : GTA5),
     text_lines w (path_join root "train.txt") = Some [] ->
     GTA5_init w root mean crop tr mi ign = Ok self ->
     GTA5_len self = 0%nat ∧ ∀ index, gta5_get w g self index = Raise IndexError) ∧
  (∀ root mean crop tr (train : bool) mi ign ssl (self : CityScapes),
     text_lines w (if train then path_join root "train.txt" else path_join root "val.txt")
       = Some [] ->
     CityScapes_init w root mean crop tr train mi ign ssl = Ok self ->
     CityScapes_len self = 0%nat ∧ ∀ index, cs_get w g self index = Raise IndexError).
Proof.
  split; [|split; [|split]].
  - intros self index. split; intros Hi.
    + by apply GTA5_getitem_raises, py_index_out_of_range.
    + by apply GTA5_getitem_index, py_index_negative.
  - intros self index. split; intros Hi.
    + by apply CityScapes_getitem_raises, py_index_out_of_range.
    + by apply CityScapes_getitem_index, py_index_negative.
  - intros root mean crop tr mi ign self Hlines Hinit.
    apply GTA5_init_inv in Hinit as (lines & Hl & Hlen).
    rewrite Hlines in Hl. injection Hl as <-.
    assert (gta5_files self = []) as Hnil by by apply nil_length_inv.
    split; [done|]. intros index.
    apply GTA5_getitem_raises. rewrite Hnil. apply py_index_nil.
  - intros root mean crop tr train mi ign ssl self Hlines Hinit.
    apply CityScapes_init_inv in Hinit as (_ & lines & Hl & Hlen).
    rewrite Hlines in Hl. injection Hl as <-.
    assert (cs_files self = []) as Hnil by by apply nil_length_inv.
    split; [done|]. intros index.
    apply CityScapes_getitem_raises. rewrite Hnil. apply py_index_nil.
Qed.

(** C10.  [max_iters] is accepted and not used: the constructors return
    the same dataset (or raise the same exception) for every value of it,
    and the length of a constructed dataset is the number of lines of its
    manifest.  [GTA5.__init__] succeeds on every manifest once the two
    files are there, [CityScapes.__init__] on every manifest whose lines
    have two underscores each. *)
Theorem max_iters_unused (w : World) (root : string) (mean : list scalar)
    (crop : size_arg) (tr : option (transform_t (RNG:=RNG))) (ign : Z)
    (mi mi' : option Z) :
  GTA5_init w root mean crop tr mi ign = GTA5_init w root mean crop tr mi' ign ∧
  (∀ train ssl,
     CityScapes_init w root mean crop tr train mi ign ssl
     = CityScapes_init w root mean crop tr train mi' ign ssl) ∧
  (∀ lines self,
     text_lines w (path_join root "train.txt") = Some lines ->
     GTA5_init w root mean crop tr mi ign = Ok self ->
     GTA5_len self = length lines) ∧
  (∀ (train : bool) ssl lines self,
     text_lines w (if train then path_join root "train.txt" else path_join root "val.txt")
       = Some lines ->
     CityScapes_init w root mean crop tr train mi ign ssl = Ok self ->
     CityScapes_len self = length lines) ∧
  (∀ lines info cm,
     text_lines w (path_join root "train.txt") = Some lines ->
     json_docs w "./data/GTA5/info.json" = Some info ->
     info !! "label2train" = Some cm ->
     ∃ self, GTA5_init w root mean crop tr mi ign = Ok self ∧
             GTA5_len self = length lines) ∧
  (∀ (train : bool) ssl lines info cm,
     text_lines w (if train then path_join root "train.txt" else path_join root "val.txt")
       = Some lines ->
     Forall (fun line => (2 <= count_char "_" line)%nat) lines ->
     json_docs w "./data/cityscapes/info.json" = Some info ->
     info !! "label2train" = Some cm ->
     ∃ self, CityScapes_init w root mean crop tr train mi ign ssl = Ok self ∧
             CityScapes_len self = length lines).
Proof.
  split; [done|]. split; [done|]. split; [|split; [|split]].
  - intros lines self Hlines Hinit.
    apply GTA5_init_inv in Hinit as (lines' & Hl & Hlen).
    unfold GTA5_len. congruence.
  - intros train ssl lines self Hlines Hinit.
    apply CityScapes_init_inv in Hinit as (_ & lines' & Hl & Hlen).
    unfold CityScapes_len. congruence.
  - intros lines info cm Hlines Hinfo Hcm.
    destruct (rmapM_total (fun line => py_index (str_split "." line) 0) lines)
      as [ids Hids].
    { intros line. destruct (str_split_cons "." line) as (p & ps & ->). by exists p. }
    unfold GTA5_init. rewrite Hlines. simpl. rewrite Hids. simpl.
    rewrite Hinfo. simpl. rewrite Hcm. simpl.
    eexists. split; [done|]. unfold GTA5_len. simpl.
    rewrite length_fmap. by eapply rmapM_length.
  - intros train ssl lines info cm Hlines Hgood Hinfo Hcm.
    destruct (rmapM_succeeds cs_img_id lines) as [ids Hids].
    { eapply Forall_impl; [exact Hgood|]. intros line Hline. simpl in Hline.
      destruct (cs_img_id_outcome line) as [(Hlt & _)|(_ & H)]; [lia|done]. }
    unfold CityScapes_init. rewrite Hlines. simpl. rewrite Hids. simpl.
    rewrite Hinfo. simpl. rewrite Hcm. simpl.
    eexists. split; [done|]. unfold CityScapes_len. simpl.
    rewrite length_fmap. by eapply rmapM_length.
Qed.


Lemma photometric_has_dims (m : scalar * scalar * scalar) (h w : nat) (p : picture rgb) :
  has_dims h w (pic_rows p) -> Forall (has_dims h w) (photometric f32_of_byte isub m p).
Proof.
  intros Hp. unfold photometric.
  repeat (apply Forall_cons; split; [by apply has_dims_map_pixels|]).
  apply Forall_nil_2.
Qed.

Lemma photometric_heights (m : scalar * scalar * scalar) (p : picture rgb) :
  Forall (fun plane => length plane = pic_height p) (photometric f32_of_byte isub m p).
Proof.
  unfold photometric, map_pixels, pic_height.
  repeat (apply Forall_cons; split; [by rewrite length_fmap|]).
  apply Forall_nil_2.
Qed.

(** C8.  The image of a returned sample has three planes; plane [c] is
    channel [2 - c] of the picture (the channel order is reversed) minus
    entry [c] of the mean, laid out as the picture is (channel first), and
    the size returned with it is (H, W, 3), the shape before the
    transposition: the size of the crop for GTA5, whatever the picture
    was, and the size of the picture that was converted for CityScapes. *)
Theorem image_channel_first (w : World) (g : RNG) :
  (∀ (self : GTA5) (index : Z) (s : Sample),
     gta5_get w g self index = Ok s ->
     ∃ file image label m,
       opened w (gta5_files self) index file image label ∧
       broadcast3 (gta5_mean self) = Ok m ∧
       s_image s = photometric f32_of_byte isub m (GTA5_picture self g image label) ∧
       s_size s = (pic_height (GTA5_picture self g image label),
                   pic_width (GTA5_picture self g image label), 3%nat) ∧
       s_size s = ((crop_hw (gta5_crop_size self)).1,
                   (crop_hw (gta5_crop_size self)).2, 3%nat) ∧
       Forall (has_dims (crop_hw (gta5_crop_size self)).1 (crop_hw (gta5_crop_size self)).2)
         (s_image s)) ∧
  (∀ (self : CityScapes) (index : Z) (s : Sample),
     cs_get w g self index = Ok s ->
     ∃ file image label m,
       opened w (cs_files self) index file image label ∧
       broadcast3 (cs_mean self) = Ok m ∧
       s_image s = photometric f32_of_byte isub m (CityScapes_picture self g image label) ∧
       s_size s = (pic_height (CityScapes_picture self g image label),
                   pic_width (CityScapes_picture self g image label), 3%nat) ∧
       Forall (fun plane => length plane = (s_size s).1.1) (s_image s)).
Proof.
  split; intros self index s Hs.
  - apply GTA5_getitem_inv in Hs as (file & image & label & Hop & Hfin).
    apply finish_inv in Hfin as (m & Hm & ->). exists file, image, label, m.
    split; [done|]. split; [done|]. split; [done|]. split; [done|]. split.
    + simpl. unfold GTA5_picture, CenterCrop, pic_height. simpl.
      unfold crop_at. by rewrite length_fmap, length_seq.
    + simpl. apply photometric_has_dims. unfold GTA5_picture, CenterCrop. simpl.
      apply crop_at_has_dims.
  - apply CityScapes_getitem_inv in Hs as (file & image & label & Hop & Hfin).
    apply finish_inv in Hfin as (m & Hm & ->). exists file, image, label, m.
    split; [done|]. split; [done|]. split; [done|]. split; [done|].
    simpl. apply photometric_heights.
Qed.

(** C3 (as amended).  The array that reaches the codec step is a float32
    array, [np.asarray(label, np.float32)]: a matrix that holds the rows of
    the label picture after the transform and the crop.
    [GTA5.__getitem__] returns what the codec makes of that array;
    [CityScapes.__getitem__] does the same outside ssl mode and returns the
    float32 array itself in ssl mode. *)
Theorem label_array_is_float32 (w : World) (g : RNG) :
  (∀ (self : GTA5) (index : Z) (s : Sample),
     gta5_get w g self index = Ok s ->
     ∃ file image label,
       opened w (gta5_files self) index file image label ∧
       s_label s =
         encode_segmap
           {| nd_dtype := Float32;
              nd_values :=
                pic_rows (CenterCrop 0 (gta5_crop_size self)
                            (apply_transform (gta5_transform self) g image label).2) |}
           (gta5_class_mapping self) (gta5_ignore_index self)) ∧
  (∀ (self : CityScapes) (index : Z) (s : Sample),
     cs_get w g self index = Ok s ->
     ∃ file image label,
       opened w (cs_files self) index file image label ∧
       (truthy (cs_ssl self) = false ->
        s_label s =
          encode_segmap
            {| nd_dtype := Float32;
               nd_values :=
                 pic_rows
                   (if contains "train" (cs_set self)
                    then CenterCrop 0 (cs_crop_size self)
                           (apply_transform (cs_transform self) g image label).2
                    else (apply_transform (cs_transform self) g image label).2) |}
            (cs_class_mapping self) (cs_ignore_index self)) ∧
       (truthy (cs_ssl self) = true ->
        s_label s =
          {| nd_dtype := Float32;
             nd_values :=
               pic_rows
                 (if contains "train" (cs_set self)
                  then CenterCrop 0 (cs_crop_size self)
                         (apply_transform (cs_transform self) g image label).2
                  else (apply_transform (cs_transform self) g image label).2) |} ∧
        is_float (nd_dtype (s_label s)) = true)).
Proof.
  split; intros self index s Hs.
  - apply GTA5_getitem_inv in Hs as (file & image & label & Hop & Hfin).
    apply finish_inv in Hfin as (m & _ & ->). simpl.
    by exists file, image, label.
  - apply CityScapes_getitem_inv in Hs as (file & image & label & Hop & Hfin).
    apply finish_inv in Hfin as (m & _ & ->). simpl.
    exists file, image, label. split; [done|].
    unfold cs_codec, CityScapes_raw_label, asarray_label.
    split; intros ->; [done|]. by split.
Qed.

(** C5 (as amended).  [GTA5.__getitem__] always, and
    [CityScapes.__getitem__] when the set of the dataset contains "train"
    (it was built with [train=True]), crops picture and label after the
    transform with one [CenterCrop] of the configured size: the image
    returned is made of the cropped picture and the label of the cropped
    label, every plane of the image and the array handed to the codec have
    the configured size, and so has the returned label when the codec
    keeps the size of what it is given; when picture and label have one
    size after the transform, both are cut at the same rectangle.  A
    [CityScapes] dataset whose set does not contain "train"
    ([train=False]) does not crop: image and label are made of the whole
    picture and the whole label. *)
Theorem crop_shares_dims (w : World) (g : RNG) :
  (∀ (self : GTA5) (index : Z) (s : Sample),
     gta5_get w g self index = Ok s ->
     ∃ file image label m,
       opened w (gta5_files self) index file image label ∧
       broadcast3 (gta5_mean self) = Ok m ∧
       s_image s =
         photometric f32_of_byte isub m
           (CenterCrop (0, 0, 0) (gta5_crop_size self)
              (apply_transform (gta5_transform self) g image label).1) ∧
       s_label s =
         encode_segmap
           {| nd_dtype := Float32;
              nd_values :=
                pic_rows (CenterCrop 0 (gta5_crop_size self)
                            (apply_transform (gta5_transform self) g image label).2) |}
           (gta5_class_mapping self) (gta5_ignore_index self) ∧
       Forall (has_dims (crop_hw (gta5_crop_size self)).1 (crop_hw (gta5_crop_size self)).2)
         (s_image s) ∧
       has_dims (crop_hw (gta5_crop_size self)).1 (crop_hw (gta5_crop_size self)).2
         (pic_rows (CenterCrop 0 (gta5_crop_size self)
                      (apply_transform (gta5_transform self) g image label).2)) ∧
       (keeps_dims encode_segmap ->
        has_dims (crop_hw (gta5_crop_size self)).1 (crop_hw (gta5_crop_size self)).2
          (nd_values (s_label s))) ∧
       (pic_height (apply_transform (gta5_transform self) g image label).1
        = pic_height (apply_transform (gta5_transform self) g image label).2 ->
        pic_width (apply_transform (gta5_transform self) g image label).1
        = pic_width (apply_transform (gta5_transform self) g image label).2 ->
        ∃ off : Z * Z,
          s_image s =
            photometric f32_of_byte isub m
              (Picture (crop_hw (gta5_crop_size self)).2
                 (crop_at (0, 0, 0) off
                    (crop_hw (gta5_crop_size self)).1 (crop_hw (gta5_crop_size self)).2
                    (pic_rows (apply_transform (gta5_transform self) g image label).1))) ∧
          s_label s =
            encode_segmap
              {| nd_dtype := Float32;
                 nd_values :=
                   crop_at 0 off
                     (crop_hw (gta5_crop_size self)).1 (crop_hw (gta5_crop_size self)).2
                     (pic_rows (apply_transform (gta5_transform self) g image label).2) |}
              (gta5_class_mapping self) (gta5_ignore_index self))) ∧
  (∀ (self : CityScapes) (index : Z) (s : Sample),
     contains "train" (cs_set self) = true ->
     cs_get w g self index = Ok s ->
     ∃ file image label m,
       opened w (cs_files self) index file image label ∧
       broadcast3 (cs_mean self) = Ok m ∧
       s_image s =
         photometric f32_of_byte isub m
           (CenterCrop (0, 0, 0) (cs_crop_size self)
              (apply_transform (cs_transform self) g image label).1) ∧
       s_label s =
         cs_codec encode_segmap self
           {| nd_dtype := Float32;
              nd_values :=
                pic_rows (CenterCrop 0 (cs_crop_size self)
                            (apply_transform (cs_transform self) g image label).2) |} ∧
       Forall (has_dims (crop_hw (cs_crop_size self)).1 (crop_hw (cs_crop_size self)).2)
         (s_image s) ∧
       has_dims (crop_hw (cs_crop_size self)).1 (crop_hw (cs_crop_size self)).2
         (pic_rows (CenterCrop 0 (cs_crop_size self)
                      (apply_transform (cs_transform self) g image label).2)) ∧
       (keeps_dims encode_segmap ->
        has_dims (crop_hw (cs_crop_size self)).1 (crop_hw (cs_crop_size self)).2
          (nd_values (s_label s))) ∧
       (pic_height (apply_transform (cs_transform self) g image label).1
        = pic_height (apply_transform (cs_transform self) g image label).2 ->
        pic_width (apply_transform (cs_transform self) g image label).1
        = pic_width (apply_transform (cs_transform self) g image label).2 ->
        ∃ off : Z * Z,
          s_image s =
            photometric f32_of_byte isub m
              (Picture (crop_hw (cs_crop_size self)).2
                 (crop_at (0, 0, 0) off
                    (crop_hw (cs_crop_size self)).1 (crop_hw (cs_crop_size self)).2
                    (pic_rows (apply_transform (cs_transform self) g image label).1))) ∧
          s_label s =
            cs_codec encode_segmap self
              {| nd_dtype := Float32;
                 nd_values :=
                   crop_at 0 off
                     (crop_hw (cs_crop_size self)).1 (crop_hw (cs_crop_size self)).2
                     (pic_rows (apply_transform (cs_transform self) g image label).2) |})) ∧
  (∀ (self : CityScapes) (index : Z) (s : Sample),
     contains "train" (cs_set self) = false ->
     cs_get w g self index = Ok s ->
     ∃ file image label m,
       opened w (cs_files self) index file image label ∧
       broadcast3 (cs_mean self) = Ok m ∧
       s_image s =
         photometric f32_of_byte isub m
           (apply_transform (cs_transform self) g image label).1 ∧
       s_label s =
         cs_codec encode_segmap self
           {| nd_dtype := Float32;
              nd_values := pic_rows (apply_transform (cs_transform self) g image label).2 |} ∧
       s_size s = (pic_height (apply_transform (cs_transform self) g image label).1,
                   pic_width (apply_transform (cs_transform self) g image label).1,
                   3%nat)) ∧
  (∀ root (mean : list scalar) crop (tr : option (transform_t (RNG:=RNG)))
     (train : bool) mi ign ssl (self : CityScapes),
     CityScapes_init w root mean crop tr train mi ign ssl = Ok self ->
     contains "train" (cs_set self) = train ∧
     cs_crop_size self = crop ∧ cs_transform self = tr).
Proof.
  split; [|split; [|split]].
  - intros self index s Hs.
    apply GTA5_getitem_inv in Hs as (file & image & label & Hop & Hfin).
    apply finish_inv in Hfin as (m & Hm & ->). simpl.
    exists file, image, label, m.
    split; [done|]. split; [done|]. split; [done|]. split; [done|].
    split; [|split; [|split]].
    + apply photometric_has_dims. unfold GTA5_picture, CenterCrop. simpl.
      apply crop_at_has_dims.
    + unfold CenterCrop. simpl. apply crop_at_has_dims.
    + intros Hkeep. apply Hkeep. unfold GTA5_raw_label, asarray_label, CenterCrop. simpl.
      apply crop_at_has_dims.
    + intros Hh Hw.
      exists (crop_offset (crop_hw (gta5_crop_size self)).1 (crop_hw (gta5_crop_size self)).2
                (pic_height (apply_transform (gta5_transform self) g image label).1)
                (pic_width (apply_transform (gta5_transform self) g image label).1)).
      split; [done|].
      unfold GTA5_raw_label, asarray_label, CenterCrop. simpl. by rewrite Hh, Hw.
  - intros self index s Htrain Hs.
    apply CityScapes_getitem_inv in Hs as (file & image & label & Hop & Hfin).
    apply finish_inv in Hfin as (m & Hm & ->). simpl.
    unfold CityScapes_picture, CityScapes_raw_label, asarray_label. rewrite Htrain.
    exists file, image, label, m.
    split; [done|]. split; [done|]. split; [done|]. split; [done|].
    split; [|split; [|split]].
    + apply photometric_has_dims. unfold CenterCrop. simpl. apply crop_at_has_dims.
    + unfold CenterCrop. simpl. apply crop_at_has_dims.
    + intros Hkeep. unfold cs_codec.
      destruct (truthy (cs_ssl self)); [|apply Hkeep];
        unfold CenterCrop; simpl; apply crop_at_has_dims.
    + intros Hh Hw.
      exists (crop_offset (crop_hw (cs_crop_size self)).1 (crop_hw (cs_crop_size self)).2
                (pic_height (apply_transform (cs_transform self) g image label).1)
                (pic_width (apply_transform (cs_transform self) g image label).1)).
      split; [done|]. unfold CenterCrop. simpl. by rewrite Hh, Hw.
  - intros self index s Htrain Hs.
    apply CityScapes_getitem_inv in Hs as (file & image & label & Hop & Hfin).
    apply finish_inv in Hfin as (m & Hm & ->). simpl.
    unfold CityScapes_picture, CityScapes_raw_label, asarray_label. rewrite Htrain.
    by exists file, image, label, m.
  - intros root mean crop tr train mi ign ssl self Hinit.
    unfold CityScapes_init in Hinit.
    destruct (text_lines w _) as [lines|]; simpl in Hinit; [|done].
    destruct (rmapM _ lines) as [ids|e]; simpl in Hinit; [|done].
    destruct (json_docs w _) as [info|]; simpl in Hinit; [|done].
    destruct (info !! "label2train") as [cm|]; simpl in Hinit; [|done].
    injection Hinit as <-. simpl. by destruct train.
Qed.

End DatasetFacts.

Section PhotometricFrame.

(** Two ways to do the arithmetic of the image, and one codec. *)
Context {float32 scalar RNG : Type}.
Variables f32_of_byte f32_of_byte' : Z -> float32.
Variables isub isub' : float32 -> scalar -> float32.
Variable encode_segmap : ndarray2 -> gmap Z Z -> Z -> ndarray2.

(** C9.  The steps from [size = image.shape] on (channel reversal, mean
    subtraction, transposition) hand the label on as they got it, so the
    label of a returned sample is what the codec step left: built from the
    label picture by the transform, the crop and the conversion, with
    nothing of the image or the mean in it.  With another mean, another
    conversion of the image or another subtraction the same call returns
    the same label. *)
Theorem label_free_of_photometric (w : World) (g : RNG) (mean' : list scalar) :
  (∀ (image : hwc) (label : ndarray2) (mean : list scalar) (name : string)
     (s : Sample),
     finish isub image label mean name = Ok s -> s_label s = label) ∧
  (∀ (self : GTA5) (index : Z) (s : Sample),
     GTA5_getitem f32_of_byte isub encode_segmap w g self index = Ok s ->
     ∃ file image label,
       opened w (gta5_files self) index file image label ∧
       s_label s =
         encode_segmap
           {| nd_dtype := Float32;
              nd_values :=
                pic_rows (CenterCrop 0 (gta5_crop_size self)
                            (apply_transform (gta5_transform self) g image label).2) |}
           (gta5_class_mapping self) (gta5_ignore_index self)) ∧
  (∀ (self : CityScapes) (index : Z) (s : Sample),
     CityScapes_getitem f32_of_byte isub encode_segmap w g self index = Ok s ->
     ∃ file image label,
       opened w (cs_files self) index file image label ∧
       s_label s =
         cs_codec encode_segmap self
           {| nd_dtype := Float32;
              nd_values :=
                pic_rows
                  (if contains "train" (cs_set self)
                   then CenterCrop 0 (cs_crop_size self)
                          (apply_transform (cs_transform self) g image label).2
                   else (apply_transform (cs_transform self) g image label).2) |}) ∧
  (∀ (self : GTA5) (index : Z) (s s' : Sample),
     GTA5_getitem f32_of_byte isub encode_segmap w g self index = Ok s ->
     GTA5_getitem f32_of_byte' isub' encode_segmap w g (GTA5_with_mean mean' self) index
       = Ok s' ->
     s_label s' = s_label s) ∧
  (∀ (self : CityScapes) (index : Z) (s s' : Sample),
     CityScapes_getitem f32_of_byte isub encode_segmap w g self index = Ok s ->
     CityScapes_getitem f32_of_byte' isub' encode_segmap w g
       (CityScapes_with_mean mean' self) index = Ok s' ->
     s_label s' = s_label s).
Proof.
  split; [|split; [|split; [|split]]].
  - intros image label mean name s. unfold finish.
    destruct (subtract_mean isub _ mean) as [a|e]; simpl; [|done].
    by intros [= <-].
  - intros self index s Hs.
    apply GTA5_getitem_inv in Hs as (file & image & label & Hop & Hfin).
    apply finish_inv in Hfin as (m & _ & ->). by exists file, image, label.
  - intros self index s Hs.
    apply CityScapes_getitem_inv in Hs as (file & image & label & Hop & Hfin).
    apply finish_inv in Hfin as (m & _ & ->). by exists file, image, label.
  - intros self index s s' Hs Hs'.
    apply GTA5_getitem_inv in Hs as (file & image & label & Hop & Hfin).
    apply finish_inv in Hfin as (m & _ & ->).
    apply GTA5_getitem_inv in Hs' as (file' & image' & label' & Hop' & Hfin').
    apply finish_inv in Hfin' as (m' & _ & ->). simpl in *.
    destruct (opened_functional _ _ _ _ _ _ _ _ _ Hop Hop') as (_ & -> & ->).
    done.
  - intros self index s s' Hs Hs'.
    apply CityScapes_getitem_inv in Hs as (file & image & label & Hop & Hfin).
    apply finish_inv in Hfin as (m & _ & ->).
    apply CityScapes_getitem_inv in Hs' as (file' & image' & label' & Hop' & Hfin').
    apply finish_inv in Hfin' as (m' & _ & ->). simpl in *.
    destruct (opened_functional _ _ _ _ _ _ _ _ _ Hop Hop') as (_ & -> & ->).
    done.
Qed.

End PhotometricFrame.

(** ** The code run on the small world *)

Lemma encode_array_keeps_dims : keeps_dims Fixture.encode_array.
Proof. intros a m ign h w Ha. simpl. by apply LabelCodecFacts.encode_has_dims. Qed.

Example gta5_built : Fixture.gta5_init = Ok Fixture.gta5.
Proof. reflexivity. Qed.

Example cityscapes_val_built (ssl : pyval) :
  Fixture.cityscapes_init false ssl = Ok (Fixture.cityscapes_val ssl).
Proof. reflexivity. Qed.

Example cityscapes_train_built (ssl : pyval) :
  Fixture.cityscapes_init true ssl = Ok (Fixture.cityscapes_train ssl).
Proof. reflexivity. Qed.

(** A manifest line without two underscores stops [CityScapes.__init__]. *)
Example cityscapes_bad_manifest :
  CityScapes_init (RNG:=unit) Fixture.world "bad" Fixture.mean (SizePair 2 2)
    None false None 255 PyNone = Raise IndexError.
Proof. reflexivity. Qed.

(** C2, the claim as stated fails: -1 is outside [0, 2), and the dataset of
    length 2 serves it with its last sample, the one of index 1. *)
Lemma getitem_negative_index_wraps :
  GTA5_len Fixture.gta5 = 2%nat ∧
  ∃ s, Fixture.gta5_getitem Fixture.gta5 (-1) = Ok s ∧
       Fixture.gta5_getitem Fixture.gta5 1 = Ok s ∧
       s_name s = "00002".
Proof. split; [reflexivity|]. eexists. repeat split; reflexivity. Qed.

Lemma getitem_index_range_witness :
  Fixture.gta5_getitem Fixture.gta5 2 = Raise IndexError ∧
  Fixture.gta5_getitem Fixture.gta5 (-3) = Raise IndexError ∧
  Fixture.gta5_getitem Fixture.gta5 (-2) = Fixture.gta5_getitem Fixture.gta5 0 ∧
  Fixture.cityscapes_getitem (Fixture.cityscapes_val PyNone) 2 = Raise IndexError ∧
  ∀ self : CityScapes,
    CityScapes_init Fixture.world "none" Fixture.mean (SizePair 2 2)
      None false None 255 PyNone = Ok self ->
    CityScapes_len self = 0%nat ∧
    ∀ index, Fixture.cityscapes_getitem self index = Raise IndexError.
Proof.
  pose proof (getitem_index_range Fixture.of_byte Fixture.sub Fixture.encode_array
                Fixture.world tt) as (Hg & Hc & _ & Hnone).
  split; [|split; [|split; [|split]]].
  - apply (proj1 (Hg Fixture.gta5 2)). right. vm_compute. discriminate.
  - apply (proj1 (Hg Fixture.gta5 (-3))). left. reflexivity.
  - apply (proj2 (Hg Fixture.gta5 (-2))). split; [vm_compute; discriminate|reflexivity].
  - apply (proj1 (Hc (Fixture.cityscapes_val PyNone) 2)). right. vm_compute. discriminate.
  - intros self Hself.
    apply (Hnone "none" Fixture.mean (SizePair 2 2) None false None 255 PyNone self);
      [reflexivity|exact Hself].
Defined.

Lemma max_iters_unused_witness :
  GTA5_init Fixture.world "gta" Fixture.mean (SizePair 2 2) (Some Fixture.mirror)
    None 255
  = GTA5_init Fixture.world "gta" Fixture.mean (SizePair 2 2) (Some Fixture.mirror)
      (Some 250000) 255 ∧
  GTA5_len Fixture.gta5 = 2%nat ∧
  CityScapes_init (RNG:=unit) Fixture.world "city" Fixture.mean (SizePair 2 2) None
    false None 255 PyNone
  = CityScapes_init Fixture.world "city" Fixture.mean (SizePair 2 2) None
      false (Some 250000) 255 PyNone ∧
  ∃ self : CityScapes,
    CityScapes_init (RNG:=unit) Fixture.world "city" Fixture.mean (SizePair 2 2) None
      false (Some 250000) 255 PyNone = Ok self ∧
    CityScapes_len self = 2%nat.
Proof.
  pose proof (max_iters_unused Fixture.world "gta" Fixture.mean (SizePair 2 2)
                (Some Fixture.mirror) 255 None (Some 250000)) as (Heq & _ & Hlen & _).
  pose proof (max_iters_unused (RNG:=unit) Fixture.world "city" Fixture.mean
                (SizePair 2 2) None 255 (Some 250000) None)
    as (_ & Hcity & _ & _ & _ & Hbuilt).
  split; [exact Heq|]. split; [|split].
  - apply (Hlen [("00001.png" +:+ Fixture.nl)%string; ("00002.png" +:+ Fixture.nl)%string]
             Fixture.gta5); reflexivity.
  - symmetry. exact (Hcity false PyNone).
  - apply (Hbuilt false PyNone
             [("bonn/bonn_000001_000019_leftImg8bit.png" +:+ Fixture.nl)%string;
              ("bonn/bonn_000002_000019_leftImg8bit.png" +:+ Fixture.nl)%string]
             Fixture.info LabelCodec.map3); [reflexivity| |reflexivity|reflexivity].
    repeat (apply Forall_cons; split; [vm_compute; lia|]). apply Forall_nil_2.
Defined.


Lemma image_channel_first_witness :
  ∃ s, Fixture.gta5_getitem Fixture.gta5 0 = Ok s ∧
       s_image s = [[[-32; -42]; [8; -2]]; [[-46; -56]; [-6; -16]]; [[-53; -63]; [-13; -23]]] ∧
       ∃ file image label m,
         opened Fixture.world (gta5_files Fixture.gta5) 0 file image label ∧
         broadcast3 Fixture.mean = Ok m ∧
         s_image s = photometric Fixture.of_byte Fixture.sub m
                       (GTA5_picture Fixture.gta5 tt image label) ∧
         s_size s = (pic_height (GTA5_picture Fixture.gta5 tt image label),
                     pic_width (GTA5_picture Fixture.gta5 tt image label), 3%nat) ∧
         s_size s = (2%nat, 2%nat, 3%nat) ∧
         Forall (has_dims 2 2) (s_image s).
Proof.
  eexists. split; [reflexivity|]. split; [reflexivity|].
  apply (proj1 (image_channel_first Fixture.of_byte Fixture.sub Fixture.encode_array
                  Fixture.world tt) Fixture.gta5 0).
  reflexivity.
Defined.

(** A crop without rows keeps its width in the size that is returned. *)
Example size_of_empty_crop :
  ∃ s, Fixture.gta5_getitem (GTA5_with_crop_size (SizePair 0 2) Fixture.gta5) 0 = Ok s ∧
       s_size s = (0%nat, 2%nat, 3%nat) ∧ s_image s = [[]; []; []].
Proof. eexists. repeat split; reflexivity. Qed.

Lemma label_free_of_photometric_witness :
  ∃ s s',
    Fixture.gta5_getitem Fixture.gta5 0 = Ok s ∧
    GTA5_getitem (fun z => 2 * z) (fun x m => x - 3 * m) Fixture.encode_array
      Fixture.world tt (GTA5_with_mean [0] Fixture.gta5) 0 = Ok s' ∧
    s_image s' ≠ s_image s ∧
    s_label s' = s_label s ∧
    nd_values (s_label s) = [[2; 1]; [255; 2]].
Proof.
  eexists _, _. split; [reflexivity|]. split; [reflexivity|]. split; [discriminate|].
  split; [|reflexivity].
  apply (proj1 (proj2 (proj2 (proj2
           (label_free_of_photometric Fixture.of_byte (fun z => 2 * z)
              Fixture.sub (fun x m => x - 3 * m) Fixture.encode_array
              Fixture.world tt [0])))) Fixture.gta5 0); reflexivity.
Defined.

(** C3, the claim as stated fails: in ssl mode the label returned is the
    float32 array that [np.asarray(label, np.float32)] made. *)
Lemma ssl_label_is_float32 :
  ∃ s, Fixture.cityscapes_getitem (Fixture.cityscapes_val (PyBool true)) 0 = Ok s ∧
       nd_dtype (s_label s) = Float32 ∧
       is_float (nd_dtype (s_label s)) = true.
Proof. eexists. repeat split; reflexivity. Qed.

Lemma label_array_is_float32_witness :
  ∃ s, Fixture.cityscapes_getitem (Fixture.cityscapes_val (PyBool true)) 1 = Ok s ∧
       s_label s = {| nd_dtype := Float32; nd_values := Fixture.label3 |} ∧
       ∃ file image label,
         opened Fixture.world (cs_files (Fixture.cityscapes_val (PyBool true))) 1
           file image label ∧
         (true = false ->
          s_label s = Fixture.encode_array
                        {| nd_dtype := Float32; nd_values := pic_rows label |}
                        LabelCodec.map3 255) ∧
         (true = true ->
          s_label s = {| nd_dtype := Float32; nd_values := pic_rows label |} ∧
          is_float (nd_dtype (s_label s)) = true).
Proof.
  eexists. split; [reflexivity|]. split; [reflexivity|].
  apply (proj2 (label_array_is_float32 Fixture.of_byte Fixture.sub Fixture.encode_array
                  Fixture.world tt) (Fixture.cityscapes_val (PyBool true)) 1).
  reflexivity.
Defined.

(** C5, the claim as stated fails: the dataset [main] builds with
    [train=False] and crop size (2, 2) returns the picture of 4 x 4 pixels
    whole, and with it a label of 3 x 3 when that is what the label file
    holds. *)
Lemma val_set_is_not_cropped :
  cs_crop_size (Fixture.cityscapes_val PyNone) = SizePair 2 2 ∧
  ∃ s, Fixture.cityscapes_getitem (Fixture.cityscapes_val PyNone) 1 = Ok s ∧
       s_size s = (4%nat, 4%nat, 3%nat) ∧
       Forall (has_dims 4 4) (s_image s) ∧
       has_dims 3 3 (nd_values (s_label s)).
Proof.
  split; [reflexivity|]. eexists. split; [reflexivity|]. split; [reflexivity|].
  split.
  - repeat (apply Forall_cons; split;
              [split; [reflexivity|repeat constructor]|]).
    apply Forall_nil_2.
  - split; [reflexivity|repeat constructor].
Qed.

Lemma crop_shares_dims_witness :
  contains "train" (cs_set (Fixture.cityscapes_train PyNone)) = true ∧
  ∃ s, Fixture.cityscapes_getitem (Fixture.cityscapes_train PyNone) 0 = Ok s ∧
       s_image s = [[[-42; -32]; [-2; 8]]; [[-56; -46]; [-16; -6]]; [[-63; -53]; [-23; -13]]] ∧
       nd_values (s_label s) = [[1; 2]; [2; 255]] ∧
       Forall (has_dims 2 2) (s_image s) ∧
       has_dims 2 2 (nd_values (s_label s)).
Proof.
  split; [reflexivity|]. eexists. split; [reflexivity|].
  split; [reflexivity|]. split; [reflexivity|].
  destruct (proj1 (proj2 (crop_shares_dims Fixture.of_byte Fixture.sub
                            Fixture.encode_array Fixture.world tt))
              (Fixture.cityscapes_train PyNone) 0 _ eq_refl eq_refl)
    as (file & image & label & m & _ & _ & _ & _ & Himg & _ & Hlab & _).
  split; [exact Himg|]. exact (Hlab encode_array_keeps_dims).
Defined.

(** * More properties of the code *)

Section IndexFacts.

Context {scalar RNG : Type}.
Implicit Types (w : World) (root : string) (mean : list scalar) (crop : size_arg).
Implicit Types (tr : option (transform_t (RNG:=RNG))) (mi : option Z) (ign : Z).

(** X1.  [GTA5.__init__] names entry [i] of the index after line [i] of
    the manifest: the name is the line up to its first dot, the line whole
    (line terminator included) when it has no dot, and the two paths are
    the image and label directories followed by the name and ".png". *)
Theorem GTA5_index_entries w root mean crop tr mi ign (self : GTA5)
    (lines : list string) :
  text_lines w (path_join root "train.txt") = Some lines ->
  GTA5_init w root mean crop tr mi ign = Ok self ->
  ∀ (i : nat) (line : string), lines !! i = Some line ->
    ∃ name rest,
      line = name +:+ rest ∧
      count_char "." name = 0%nat ∧
      (rest = "" ∨ ∃ r, rest = String "." r) ∧
      gta5_img_ids self !! i = Some name ∧
      gta5_files self !! i =
        Some {| fe_image := path_join root "images/" +:+ name +:+ ".png";
                fe_label := path_join root "labels/" +:+ name +:+ ".png";
                fe_name := name |}.
Proof.
  intros Hlines Hinit i line Hi. unfold GTA5_init in Hinit.
  rewrite Hlines in Hinit. simpl in Hinit.
  destruct (rmapM _ lines) as [ids|e] eqn:Hids; simpl in Hinit; [|done].
  destruct (json_docs w _) as [info|]; simpl in Hinit; [|done].
  destruct (info !! "label2train") as [cm|]; simpl in Hinit; [|done].
  injection Hinit as <-. simpl.
  destruct (rmapM_lookup _ _ _ _ _ Hids Hi) as (name & Hname & Hid).
  rewrite (py_index_nat _ 0) in Hname.
  destruct (str_split "." line) as [|p ps] eqn:Hsplit; [done|].
  injection Hname as ->.
  destruct (str_split_head _ _ _ _ Hsplit) as (Hdot & Hrest).
  rewrite list_lookup_fmap, Hid. simpl.
  destruct Hrest as [(-> & ->)|(r & -> & Hr)].
  - exists name, "". rewrite append_empty_r. repeat split; try done. by left.
  - exists name, (String "." r). repeat split; try done. right. by exists r.
Qed.

End IndexFacts.

Lemma count_char_app (c : Ascii.ascii) (a b : string) :
  count_char c (a +:+ b) = (count_char c a + count_char c b)%nat.
Proof.
  induction a as [|x a IH]; [done|].
  change (count_char c (String x (a +:+ b))
          = (count_char c (String x a) + count_char c b)%nat).
  simpl. rewrite IH. lia.
Qed.

(** X2.  For a manifest line [city/stem_seq_frame_rest], where the four
    parts have no underscore and the directory no slash,
    [CityScapes.__init__] makes the identifier [city_seq_frame]: it starts
    with the directory, not with the stem of the file name. *)
Theorem cs_img_id_well_formed (city stem seq frame rest : string) :
  count_char "/" city = 0%nat ->
  count_char "_" city = 0%nat ->
  count_char "_" stem = 0%nat ->
  count_char "_" seq = 0%nat ->
  count_char "_" frame = 0%nat ->
  cs_img_id (city +:+ "/" +:+ stem +:+ "_" +:+ seq +:+ "_" +:+ frame +:+ "_" +:+ rest)
  = Ok (city +:+ "_" +:+ seq +:+ "_" +:+ frame).
Proof.
  intros Hslash Hcity Hstem Hseq Hframe.
  remember (city +:+ "/" +:+ stem +:+ "_" +:+ seq +:+ "_" +:+ frame +:+ "_" +:+ rest)
    as line eqn:Hline.
  assert (str_split "/" line
          = city :: str_split "/" (stem +:+ "_" +:+ seq +:+ "_" +:+ frame +:+ "_" +:+ rest))
    as Hdir.
  { rewrite Hline. by apply (str_split_app "/" city). }
  assert (str_split "_" line
          = (city +:+ "/" +:+ stem) :: seq :: frame :: str_split "_" rest) as Hparts.
  { assert (count_char "_" (city +:+ "/" +:+ stem) = 0%nat) as Hfirst.
    { by rewrite !count_char_app, Hcity, Hstem. }
    replace line
      with ((city +:+ "/" +:+ stem)
            +:+ String "_" (seq +:+ String "_" (frame +:+ String "_" rest)))
      by (by rewrite Hline, !append_assoc).
    by rewrite (str_split_app "_" _ _ Hfirst), (str_split_app "_" _ _ Hseq),
      (str_split_app "_" _ _ Hframe). }
  unfold cs_img_id. rewrite Hdir, Hparts.
  by rewrite (py_index_nat _ 0), (py_index_nat _ 1), (py_index_nat _ 2).
Qed.

Lemma cs_img_id_well_formed_witness :
  count_char "/" "bonn" = 0%nat ∧
  cs_img_id ("bonn" +:+ "/" +:+ "bonn" +:+ "_" +:+ "000001" +:+ "_" +:+ "000019"
             +:+ "_" +:+ "leftImg8bit.png")
  = Ok ("bonn" +:+ "_" +:+ "000001" +:+ "_" +:+ "000019").
Proof.
  split; [reflexivity|].
  apply (cs_img_id_well_formed "bonn" "bonn" "000001" "000019" "leftImg8bit.png");
    reflexivity.
Defined.

Lemma py_index_fmap {A B} (f : A -> B) (l : list A) (i : Z) (y : B) :
  py_index (f <$> l) i = Ok y -> ∃ x, py_index l i = Ok x ∧ y = f x.
Proof.
  unfold py_index. rewrite length_fmap.
  destruct ((0 <=? _) && _); [|done].
  rewrite list_lookup_fmap. destruct (l !! _) as [x|]; simpl; [|done].
  intros [= <-]. by exists x.
Qed.

Lemma py_index_rmapM {A B} (f : A -> result B) (xs : list A) (ys : list B)
    (i : Z) (y : B) :
  rmapM f xs = Ok ys -> py_index ys i = Ok y ->
  ∃ x, py_index xs i = Ok x ∧ f x = Ok y.
Proof.
  intros Hm. unfold py_index. rewrite (rmapM_length _ _ _ Hm).
  destruct ((0 <=? _) && _); [|done].
  destruct (xs !! _) as [x|] eqn:Hx.
  - destruct (rmapM_lookup _ _ _ _ _ Hm Hx) as (y' & Hy' & ->). simpl.
    intros [= <-]. by exists x.
  - apply lookup_ge_None in Hx. rewrite lookup_ge_None_2; [done|].
    by rewrite (rmapM_length _ _ _ Hm).
Qed.

Section ConstructorFacts.

Context {float32 scalar RNG : Type}.
Variable f32_of_byte : Z -> float32.
Variable isub : float32 -> scalar -> float32.
Variable encode_segmap : ndarray2 -> gmap Z Z -> Z -> ndarray2.
Implicit Types (w : World) (root : string) (mean : list scalar) (crop : size_arg).
Implicit Types (tr : option (transform_t (RNG:=RNG))) (mi : option Z) (ign : Z).

Lemma GTA5_init_files w root mean crop tr mi ign (self : GTA5) (lines : list string) :
  text_lines w (path_join root "train.txt") = Some lines ->
  GTA5_init w root mean crop tr mi ign = Ok self ->
  rmapM (fun line => py_index (str_split "." line) 0) lines = Ok (gta5_img_ids self) ∧
  gta5_files self =
    (fun name => {| fe_image := path_join root "images/" +:+ name +:+ ".png";
                    fe_label := path_join root "labels/" +:+ name +:+ ".png";
                    fe_name := name |}) <$> gta5_img_ids self.
Proof.
  intros Hlines Hinit. unfold GTA5_init in Hinit.
  rewrite Hlines in Hinit. simpl in Hinit.
  destruct (rmapM _ lines) as [ids|e] eqn:Hids; simpl in Hinit; [|done].
  destruct (json_docs w _) as [info|]; simpl in Hinit; [|done].
  destruct (info !! "label2train") as [cm|]; simpl in Hinit; [|done].
  by injection Hinit as <-.
Qed.

Lemma CityScapes_init_files w root mean crop tr (train : bool) mi ign ssl
    (self : CityScapes) (lines : list string) :
  text_lines w (if train then path_join root "train.txt" else path_join root "val.txt")
    = Some lines ->
  CityScapes_init w root mean crop tr train mi ign ssl = Ok self ->
  rmapM cs_img_id lines = Ok (cs_img_ids self) ∧
  cs_files self =
    (fun name => {| fe_image := path_join root "images/" +:+ name +:+ "_leftImg8bit.png";
                    fe_label := path_join root "labels/" +:+ name
                                +:+ "_gtFine_labelIds.png";
                    fe_name := name |}) <$> cs_img_ids self.
Proof.
  intros Hlines Hinit. unfold CityScapes_init in Hinit.
  rewrite Hlines in Hinit. simpl in Hinit.
  destruct (rmapM _ lines) as [ids|e] eqn:Hids; simpl in Hinit; [|done].
  destruct (json_docs w _) as [info|]; simpl in Hinit; [|done].
  destruct (info !! "label2train") as [cm|]; simpl in Hinit; [|done].
  by injection Hinit as <-.
Qed.

(** X3.  With the manifest there, [CityScapes.__init__] raises
    [IndexError] as soon as one line has fewer than two underscores,
    whether or not the label map can be read; when every line has two, and
    the map is there, it returns a dataset with one entry per line. *)
Theorem CityScapes_init_manifest w root mean crop tr (train : bool) mi ign ssl
    (lines : list string) :
  text_lines w (if train then path_join root "train.txt" else path_join root "val.txt")
    = Some lines ->
  (Exists (fun line => (count_char "_" line < 2)%nat) lines ->
   CityScapes_init w root mean crop tr train mi ign ssl = Raise IndexError) ∧
  (Forall (fun line => (2 <= count_char "_" line)%nat) lines ->
   ∀ info cm,
     json_docs w "./data/cityscapes/info.json" = Some info ->
     info !! "label2train" = Some cm ->
     ∃ self : CityScapes,
       CityScapes_init w root mean crop tr train mi ign ssl = Ok self ∧
       CityScapes_len self = length lines ∧
       cs_class_mapping self = cm).
Proof.
  intros Hlines. split.
  - intros Hbad. unfold CityScapes_init. rewrite Hlines. simpl.
    rewrite (rmapM_raises cs_img_id lines IndexError); [done| |].
    + intros line e He. destruct (cs_img_id_outcome line) as [(_ & H)|(_ & name & H)];
        congruence.
    + eapply Exists_impl; [exact Hbad|]. intros line Hline. simpl in Hline.
      destruct (cs_img_id_outcome line) as [(_ & H)|(Hge & _)]; [by eexists|lia].
  - intros Hgood info cm Hinfo Hcm.
    destruct (rmapM_succeeds cs_img_id lines) as [ids Hids].
    { eapply Forall_impl; [exact Hgood|]. intros line Hline. simpl in Hline.
      destruct (cs_img_id_outcome line) as [(Hlt & _)|(_ & H)]; [lia|done]. }
    unfold CityScapes_init. rewrite Hlines. simpl. rewrite Hids. simpl.
    rewrite Hinfo. simpl. rewrite Hcm. simpl.
    eexists. split; [done|]. unfold CityScapes_len. simpl.
    rewrite length_fmap. split; [by eapply rmapM_length|done].
Qed.

(** X4.  What [GTA5.__init__] does is settled by three look-ups, in
    this order, and by none of the lines of the manifest:
    [FileNotFoundError] without the manifest, [FileNotFoundError] without
    the label map file, [KeyError] when that document has no entry
    "label2train", and a dataset with one entry per line otherwise. *)
Theorem GTA5_init_errors w root mean crop tr mi ign :
  (text_lines w (path_join root "train.txt") = None ->
   GTA5_init w root mean crop tr mi ign = Raise FileNotFoundError) ∧
  (∀ lines,
     text_lines w (path_join root "train.txt") = Some lines ->
     json_docs w "./data/GTA5/info.json" = None ->
     GTA5_init w root mean crop tr mi ign = Raise FileNotFoundError) ∧
  (∀ lines info,
     text_lines w (path_join root "train.txt") = Some lines ->
     json_docs w "./data/GTA5/info.json" = Some info ->
     info !! "label2train" = None ->
     GTA5_init w root mean crop tr mi ign = Raise KeyError) ∧
  (∀ lines info cm,
     text_lines w (path_join root "train.txt") = Some lines ->
     json_docs w "./data/GTA5/info.json" = Some info ->
     info !! "label2train" = Some cm ->
     ∃ self : GTA5,
       GTA5_init w root mean crop tr mi ign = Ok self ∧
       length (gta5_files self) = length lines ∧
       gta5_class_mapping self = cm ∧
       gta5_crop_size self = crop ∧ gta5_transform self = tr ∧
       gta5_mean self = mean ∧ gta5_ignore_index self = ign).
Proof.
  assert (∀ lines, ∃ ids,
            rmapM (fun line => py_index (str_split "." line) 0) lines = Ok ids) as Hids.
  { intros lines. apply rmapM_total. intros line.
    destruct (str_split_cons "." line) as (p & ps & ->). by exists p. }
  split; [|split; [|split]].
  - intros Hnone. unfold GTA5_init. by rewrite Hnone.
  - intros lines Hlines Hjson. unfold GTA5_init. rewrite Hlines. simpl.
    destruct (Hids lines) as [ids ->]. simpl. by rewrite Hjson.
  - intros lines info Hlines Hjson Hkey. unfold GTA5_init. rewrite Hlines. simpl.
    destruct (Hids lines) as [ids ->]. simpl. rewrite Hjson. simpl. by rewrite Hkey.
  - intros lines info cm Hlines Hjson Hkey. unfold GTA5_init. rewrite Hlines. simpl.
    destruct (Hids lines) as [ids Hrm]. rewrite Hrm. simpl. rewrite Hjson. simpl.
    rewrite Hkey. simpl. eexists. split; [done|]. simpl.
    rewrite length_fmap. split; [by eapply rmapM_length|done].
Qed.

(** X5.  The name of the sample that [__getitem__] returns for [index] is
    the identifier the constructor made of the manifest line at [index]
    (counted from the end when negative): the line up to its first dot for
    GTA5, the directory and the second and third underscore pieces for
    CityScapes. *)
Theorem sample_name_from_manifest w (g : RNG) root mean crop tr mi ign :
  (∀ (self : GTA5) lines index (s : Sample),
     text_lines w (path_join root "train.txt") = Some lines ->
     GTA5_init w root mean crop tr mi ign = Ok self ->
     GTA5_getitem f32_of_byte isub encode_segmap w g self index = Ok s ->
     ∃ line, py_index lines index = Ok line ∧
             py_index (str_split "." line) 0 = Ok (s_name s)) ∧
  (∀ (train : bool) ssl (self : CityScapes) lines index (s : Sample),
     text_lines w (if train then path_join root "train.txt" else path_join root "val.txt")
       = Some lines ->
     CityScapes_init w root mean crop tr train mi ign ssl = Ok self ->
     CityScapes_getitem f32_of_byte isub encode_segmap w g self index = Ok s ->
     ∃ line, py_index lines index = Ok line ∧ cs_img_id line = Ok (s_name s)).
Proof.
  split.
  - intros self lines index s Hlines Hinit Hs.
    destruct (GTA5_init_files _ _ _ _ _ _ _ _ _ Hlines Hinit) as (Hids & Hfiles).
    apply GTA5_getitem_inv in Hs as (file & image & label & (Hfile & _) & Hfin).
    apply finish_inv in Hfin as (m & _ & ->). simpl.
    rewrite Hfiles in Hfile. apply py_index_fmap in Hfile as (name & Hname & ->). simpl.
    by apply (py_index_rmapM _ _ _ _ _ Hids).
  - intros train ssl self lines index s Hlines Hinit Hs.
    destruct (CityScapes_init_files _ _ _ _ _ _ _ _ _ _ _ Hlines Hinit) as (Hids & Hfiles).
    apply CityScapes_getitem_inv in Hs as (file & image & label & (Hfile & _) & Hfin).
    apply finish_inv in Hfin as (m & _ & ->). simpl.
    rewrite Hfiles in Hfile. apply py_index_fmap in Hfile as (name & Hname & ->). simpl.
    by apply (py_index_rmapM _ _ _ _ _ Hids).
Qed.

End ConstructorFacts.

(** ** The root directory *)

Lemma ends_with_sep_app (root : string) : ends_with_sep (root +:+ "/") = true.
Proof.
  induction root as [|c r IH]; [done|].
  change (ends_with_sep (String c (r +:+ "/")) = true).
  destruct (r +:+ "/") eqn:Hr; [by destruct r|].
  exact IH.
Qed.

Lemma path_join_trailing_sep (root b : string) :
  root ≠ "" -> ends_with_sep root = false ->
  path_join (root +:+ "/") b = path_join root b.
Proof.
  intros Hroot Hend. unfold path_join.
  destruct (starts_with_sep b); [done|].
  rewrite ends_with_sep_app, Hend, orb_true_r.
  replace (String.eqb root "") with false.
  - simpl. apply append_assoc.
  - symmetry. by apply String.eqb_neq.
Qed.

Section RootFacts.

Context {float32 scalar RNG : Type}.
Variable f32_of_byte : Z -> float32.
Variable isub : float32 -> scalar -> float32.
Variable encode_segmap : ndarray2 -> gmap Z Z -> Z -> ndarray2.
Implicit Types (w : World) (root : string) (mean : list scalar) (crop : size_arg).
Implicit Types (tr : option (transform_t (RNG:=RNG))) (mi : option Z) (ign : Z).

(** X6.  A slash at the end of [root] changes nothing but the [root]
    field: both constructors read the same manifest, build the same index
    and the datasets return the same samples. *)
Theorem root_trailing_slash w root mean crop tr mi ign :
  root ≠ "" -> ends_with_sep root = false ->
  (∀ self : GTA5,
     GTA5_init w root mean crop tr mi ign = Ok self ->
     ∃ self' : GTA5,
       GTA5_init w (root +:+ "/") mean crop tr mi ign = Ok self' ∧
       gta5_files self' = gta5_files self ∧
       ∀ w' (g : RNG) index,
         GTA5_getitem f32_of_byte isub encode_segmap w' g self' index
         = GTA5_getitem f32_of_byte isub encode_segmap w' g self index) ∧
  (∀ (train : bool) ssl (self : CityScapes),
     CityScapes_init w root mean crop tr train mi ign ssl = Ok self ->
     ∃ self' : CityScapes,
       CityScapes_init w (root +:+ "/") mean crop tr train mi ign ssl = Ok self' ∧
       cs_files self' = cs_files self ∧
       ∀ w' (g : RNG) index,
         CityScapes_getitem f32_of_byte isub encode_segmap w' g self' index
         = CityScapes_getitem f32_of_byte isub encode_segmap w' g self index).
Proof.
  intros Hroot Hend. split.
  - intros self Hinit. unfold GTA5_init in *.
    rewrite !(path_join_trailing_sep root _ Hroot Hend).
    destruct (text_lines w _) as [lines|]; simpl in *; [|done].
    destruct (rmapM _ lines) as [ids|e]; simpl in *; [|done].
    destruct (json_docs w _) as [info|]; simpl in *; [|done].
    destruct (info !! "label2train") as [cm|]; simpl in *; [|done].
    injection Hinit as <-. eexists. split; [done|]. by split.
  - intros train ssl self Hinit. unfold CityScapes_init in *.
    rewrite !(path_join_trailing_sep root _ Hroot Hend).
    destruct (text_lines w _) as [lines|]; simpl in *; [|done].
    destruct (rmapM _ lines) as [ids|e]; simpl in *; [|done].
    destruct (json_docs w _) as [info|]; simpl in *; [|done].
    destruct (info !! "label2train") as [cm|]; simpl in *; [|done].
    injection Hinit as <-. eexists. split; [done|]. by split.
Qed.

End RootFacts.

(** ** What [__getitem__] needs *)

Section GetitemFacts.

Context {float32 scalar RNG : Type}.
Variable f32_of_byte : Z -> float32.
Variable isub : float32 -> scalar -> float32.
Variable encode_segmap : ndarray2 -> gmap Z Z -> Z -> ndarray2.

Lemma broadcast3_fails (mean : list scalar) :
  length mean ≠ 1%nat -> length mean ≠ 3%nat -> broadcast3 mean = Raise ValueError.
Proof. destruct mean as [|m0 [|m1 [|m2 [|m3 mean]]]]; simpl; done. Qed.

Lemma finish_ok (p : picture rgb) (label : ndarray2) (mean : list scalar)
    (m : scalar * scalar * scalar) (name : string) :
  broadcast3 mean = Ok m ->
  finish isub (asarray_rgb f32_of_byte p) label mean name
  = Ok {| s_image := photometric f32_of_byte isub m p; s_label := label;
          s_size := (pic_height p, pic_width p, 3%nat); s_name := name |}.
Proof.
  intros Hm. unfold finish, subtract_mean. rewrite Hm. simpl.
  by rewrite photometric_steps, shape3_asarray.
Qed.

Lemma GTA5_getitem_opened (w : World) (g : RNG) (self : GTA5) (index : Z)
    (file : FileEntry) (image : picture rgb) (label : picture Z) :
  opened w (gta5_files self) index file image label ->
  GTA5_getitem f32_of_byte isub encode_segmap w g self index
  = finish isub (asarray_rgb f32_of_byte (GTA5_picture self g image label))
      (encode_segmap (GTA5_raw_label self g image label)
         (gta5_class_mapping self) (gta5_ignore_index self))
      (gta5_mean self) (fe_name file).
Proof.
  intros (Hf & Hi & Hl). unfold GTA5_getitem, GTA5_picture, GTA5_raw_label.
  rewrite Hf. simpl. rewrite Hi, Hl. simpl.
  by destruct (apply_transform (gta5_transform self) g image label).
Qed.

Lemma CityScapes_getitem_opened (w : World) (g : RNG) (self : CityScapes) (index : Z)
    (file : FileEntry) (image : picture rgb) (label : picture Z) :
  opened w (cs_files self) index file image label ->
  CityScapes_getitem f32_of_byte isub encode_segmap w g self index
  = finish isub (asarray_rgb f32_of_byte (CityScapes_picture self g image label))
      (cs_codec encode_segmap self (CityScapes_raw_label self g image label))
      (cs_mean self) (fe_name file).
Proof.
  intros (Hf & Hi & Hl).
  unfold CityScapes_getitem, CityScapes_picture, CityScapes_raw_label, cs_codec.
  rewrite Hf. simpl. rewrite Hi, Hl. simpl.
  destruct (apply_transform (cs_transform self) g image label). simpl.
  by destruct (truthy (cs_ssl self)).
Qed.


(** X8.  What [__getitem__] raises once the index selects an entry:
    [FileNotFoundError] when the image file is missing, [FileNotFoundError]
    when the label file is missing (for CityScapes in ssl mode too, where
    the label is not remapped), and [ValueError] when both are there but the
    mean has neither one nor three entries. *)
Theorem getitem_errors (w : World) (g : RNG) :
  (∀ (self : GTA5) index file,
     py_index (gta5_files self) index = Ok file ->
     (rgb_pictures w (fe_image file) = None ->
      GTA5_getitem f32_of_byte isub encode_segmap w g self index
      = Raise FileNotFoundError) ∧
     (∀ image,
        rgb_pictures w (fe_image file) = Some image ->
        label_pictures w (fe_label file) = None ->
        GTA5_getitem f32_of_byte isub encode_segmap w g self index
        = Raise FileNotFoundError) ∧
     (∀ image label,
        rgb_pictures w (fe_image file) = Some image ->
        label_pictures w (fe_label file) = Some label ->
        length (gta5_mean self) ≠ 1%nat -> length (gta5_mean self) ≠ 3%nat ->
        GTA5_getitem f32_of_byte isub encode_segmap w g self index
        = Raise ValueError)) ∧
  (∀ (self : CityScapes) index file,
     py_index (cs_files self) index = Ok file ->
     (rgb_pictures w (fe_image file) = None ->
      CityScapes_getitem f32_of_byte isub encode_segmap w g self index
      = Raise FileNotFoundError) ∧
     (∀ image,
        rgb_pictures w (fe_image file) = Some image ->
        label_pictures w (fe_label file) = None ->
        CityScapes_getitem f32_of_byte isub encode_segmap w g self index
        = Raise FileNotFoundError) ∧
     (∀ image label,
        rgb_pictures w (fe_image file) = Some image ->
        label_pictures w (fe_label file) = Some label ->
        length (cs_mean self) ≠ 1%nat -> length (cs_mean self) ≠ 3%nat ->
        CityScapes_getitem f32_of_byte isub encode_segmap w g self index
        = Raise ValueError)).
Proof.
  split; intros self index file Hf; (split; [|split]).
  - intros Hi. unfold GTA5_getitem. rewrite Hf. simpl. by rewrite Hi.
  - intros image Hi Hl. unfold GTA5_getitem. rewrite Hf. simpl. rewrite Hi. simpl.
    by rewrite Hl.
  - intros image label Hi Hl H1 H3.
    rewrite (GTA5_getitem_opened w g self index file image label); [|done].
    unfold finish, subtract_mean. by rewrite broadcast3_fails.
  - intros Hi. unfold CityScapes_getitem. rewrite Hf. simpl. by rewrite Hi.
  - intros image Hi Hl. unfold CityScapes_getitem. rewrite Hf. simpl. rewrite Hi. simpl.
    by rewrite Hl.
  - intros image label Hi Hl H1 H3.
    rewrite (CityScapes_getitem_opened w g self index file image label); [|done].
    unfold finish, subtract_mean. by rewrite broadcast3_fails.
Qed.

End GetitemFacts.

(** ** The centre crop on pictures that are large enough *)

Lemma round_half_bounds (n : Z) :
  0 <= n -> 0 <= round_half n <= n ∧ -1 <= n - 2 * round_half n <= 1.
Proof.
  intros Hn. unfold round_half.
  pose proof (Z.div_mod n 2 ltac:(lia)) as Hdm.
  pose proof (Z.mod_pos_bound n 2 ltac:(lia)) as Hmod.
  pose proof (Zmod_even n) as Hparity.
  destruct (Z.even n) eqn:Hen; simpl; [lia|].
  - destruct (Z.even (n `div` 2)) eqn:Heq; [lia|].
    assert (n `div` 2 ≠ 0) as Hq0 by (intros H0; by rewrite H0 in Heq).
    lia.
Qed.

Lemma rectangular_at_pos {A} (p : matrix A) (i j : nat) :
  rectangular p -> (i < height p)%nat -> (j < width p)%nat ->
  ∃ x, at_pos p i j = Some x.
Proof.
  intros Hrect Hi Hj. unfold at_pos.
  destruct (lookup_lt_is_Some_2 p i Hi) as [r Hr]. rewrite Hr. simpl.
  apply lookup_lt_is_Some_2.
  unfold rectangular in Hrect. rewrite Forall_forall in Hrect.
  rewrite (Hrect r); [done|]. by eapply list_elem_of_lookup_2.
Qed.

Lemma crop_at_at_pos {A} (fill : A) (off : Z * Z) (th tw : nat) (p : matrix A)
    (i j : nat) :
  (i < th)%nat -> (j < tw)%nat ->
  at_pos (crop_at fill off th tw p) i j
  = Some (pixel_or fill p (off.1 + Z.of_nat i) (off.2 + Z.of_nat j)).
Proof.
  intros Hi Hj. unfold at_pos, crop_at.
  rewrite list_lookup_fmap, lookup_seq_lt by done. simpl.
  by rewrite list_lookup_fmap, lookup_seq_lt by done.
Qed.

(** X9.  On a picture at least as large as the crop, [CenterCrop] cuts a
    rectangle that lies inside the picture, its margins on opposite sides
    differing by one pixel at most, and every pixel of the result is the
    pixel of the picture at that place: nothing is padded. *)
Theorem center_crop_inside {A} (fill : A) (size : size_arg) (p : matrix A) :
  rectangular p ->
  ((crop_hw size).1 <= height p)%nat ->
  ((crop_hw size).2 <= width p)%nat ->
  ∃ top left : nat,
    (top + (crop_hw size).1 <= height p)%nat ∧
    (left + (crop_hw size).2 <= width p)%nat ∧
    (height p - (crop_hw size).1 - top <= top + 1)%nat ∧
    (top <= height p - (crop_hw size).1 - top + 1)%nat ∧
    (width p - (crop_hw size).2 - left <= left + 1)%nat ∧
    (left <= width p - (crop_hw size).2 - left + 1)%nat ∧
    ∀ i j : nat,
      (i < (crop_hw size).1)%nat -> (j < (crop_hw size).2)%nat ->
      at_pos (center_crop fill size p) i j = at_pos p (top + i) (left + j) ∧
      is_Some (at_pos p (top + i) (left + j)).
Proof.
  intros Hrect Hh Hw. unfold center_crop.
  destruct (crop_hw size) as [th tw]. simpl in *.
  unfold crop_offset.
  replace (height p <? th)%nat with false by (symmetry; apply Nat.ltb_ge; lia).
  replace (width p <? tw)%nat with false by (symmetry; apply Nat.ltb_ge; lia).
  rewrite !Nat.max_l by lia. rewrite !Z.sub_0_r.
  pose proof (round_half_bounds (Z.of_nat (height p) - Z.of_nat th) ltac:(lia)) as Ht.
  pose proof (round_half_bounds (Z.of_nat (width p) - Z.of_nat tw) ltac:(lia)) as Hl.
  set (top := round_half (Z.of_nat (height p) - Z.of_nat th)) in *.
  set (left := round_half (Z.of_nat (width p) - Z.of_nat tw)) in *.
  exists (Z.to_nat top), (Z.to_nat left).
  repeat (split; [lia|]).
  intros i j Hi Hj. rewrite crop_at_at_pos by done. simpl.
  destruct (rectangular_at_pos p (Z.to_nat top + i) (Z.to_nat left + j) Hrect)
    as [x Hx]; [lia|lia|].
  rewrite Hx. split; [|by eexists]. unfold pixel_or.
  replace (0 <=? top + Z.of_nat i) with true by (symmetry; apply Z.leb_le; lia).
  replace (0 <=? left + Z.of_nat j) with true by (symmetry; apply Z.leb_le; lia).
  simpl.
  replace (Z.to_nat (top + Z.of_nat i)) with (Z.to_nat top + i)%nat by lia.
  replace (Z.to_nat (left + Z.of_nat j)) with (Z.to_nat left + j)%nat by lia.
  by rewrite Hx.
Qed.

Lemma center_crop_inside_witness :
  rectangular Fixture.label4 ∧
  ∃ top left : nat,
    ∀ i j : nat, (i < 2)%nat -> (j < 2)%nat ->
      at_pos (center_crop 0 (SizePair 2 2) Fixture.label4) i j
      = at_pos Fixture.label4 (top + i) (left + j) ∧
      is_Some (at_pos Fixture.label4 (top + i) (left + j)).
Proof.
  assert (rectangular Fixture.label4) as Hrect by (repeat constructor).
  split; [exact Hrect|].
  destruct (center_crop_inside 0 (SizePair 2 2) Fixture.label4 Hrect)
    as (top & left & _ & _ & _ & _ & _ & _ & Hpix);
    [vm_compute; lia|vm_compute; lia|].
  exists top, left. exact Hpix.
Defined.

Lemma crop_at_origin {A} (fill : A) (h w : nat) (p : matrix A) :
  has_dims h w p -> crop_at fill (0, 0) h w p = p.
Proof.
  intros [Hh Hw]. apply list_eq. intros i. unfold crop_at.
  rewrite list_lookup_fmap.
  destruct (decide (i < h)%nat) as [Hi|Hi].
  - rewrite lookup_seq_lt by done. simpl.
    destruct (lookup_lt_is_Some_2 p i ltac:(lia)) as [r Hr]. rewrite Hr. f_equal.
    assert (length r = w) as Hlen.
    { rewrite Forall_forall in Hw. apply Hw. by eapply list_elem_of_lookup_2. }
    apply list_eq. intros j. rewrite list_lookup_fmap.
    destruct (decide (j < w)%nat) as [Hj|Hj].
    + rewrite lookup_seq_lt by done. simpl.
      destruct (lookup_lt_is_Some_2 r j ltac:(lia)) as [x Hx]. rewrite Hx. f_equal.
      unfold pixel_or, at_pos. simpl. rewrite !Z.add_0_l, !Nat2Z.id, Hr. simpl.
      rewrite Hx.
      replace (0 <=? Z.of_nat i) with true by (symmetry; apply Z.leb_le; lia).
      by replace (0 <=? Z.of_nat j) with true by (symmetry; apply Z.leb_le; lia).
    + rewrite lookup_seq_ge by lia. simpl. symmetry. apply lookup_ge_None_2. lia.
  - rewrite lookup_seq_ge by lia. simpl. symmetry. apply lookup_ge_None_2. lia.
Qed.

(** X10.  A picture that has the size of the crop already comes back from
    [CenterCrop] unchanged. *)
Theorem center_crop_exact_size {A} (fill : A) (size : size_arg) (p : matrix A) :
  rectangular p ->
  crop_hw size = (height p, width p) ->
  center_crop fill size p = p.
Proof.
  intros Hrect Hsize. unfold center_crop. rewrite Hsize.
  unfold crop_offset. rewrite !Nat.ltb_irrefl, !Nat.max_id, !Z.sub_diag.
  change (round_half 0 - 0) with 0.
  by apply crop_at_origin.
Qed.

Lemma center_crop_exact_size_witness :
  rectangular Fixture.label3 ∧
  center_crop 0 (SizeInt 3) Fixture.label3 = Fixture.label3.
Proof.
  assert (rectangular Fixture.label3) as Hrect by (repeat constructor).
  split; [exact Hrect|].
  by apply (center_crop_exact_size 0 (SizeInt 3) Fixture.label3 Hrect).
Defined.

(** ** The codec and the image; the two classes; [main] *)

Section CodecFrame.

Context {float32 scalar RNG : Type}.
Variable f32_of_byte : Z -> float32.
Variable isub : float32 -> scalar -> float32.
Variables encode_segmap encode_segmap' : ndarray2 -> gmap Z Z -> Z -> ndarray2.

(** X11.  The codec, the label map, the ignore index and [ssl] reach the
    label only: the same call on a dataset with others of them, and with
    another codec, returns the same image, size and name, and it returns a
    sample whenever the first call does. *)
Theorem image_free_of_codec (w : World) (g : RNG) (ssl' : pyval)
    (class_mapping' : gmap Z Z) (ignore_index' : Z) :
  (∀ (self : GTA5) (index : Z) (s : Sample),
     GTA5_getitem f32_of_byte isub encode_segmap w g self index = Ok s ->
     ∃ s' : Sample,
       GTA5_getitem f32_of_byte isub encode_segmap' w g
         (GTA5_with_codec class_mapping' ignore_index' self) index = Ok s' ∧
       s_image s' = s_image s ∧ s_size s' = s_size s ∧ s_name s' = s_name s) ∧
  (∀ (self : CityScapes) (index : Z) (s : Sample),
     CityScapes_getitem f32_of_byte isub encode_segmap w g self index = Ok s ->
     ∃ s' : Sample,
       CityScapes_getitem f32_of_byte isub encode_segmap' w g
         (CityScapes_with_codec ssl' class_mapping' ignore_index' self) index = Ok s' ∧
       s_image s' = s_image s ∧ s_size s' = s_size s ∧ s_name s' = s_name s).
Proof.
  split; intros self index s Hs.
  - apply GTA5_getitem_inv in Hs as (file & image & label & Hop & Hfin).
    apply finish_inv in Hfin as (m & Hm & ->).
    eexists. split; [|split; [|split]];
      [rewrite (GTA5_getitem_opened f32_of_byte isub encode_segmap' w g
                  (GTA5_with_codec class_mapping' ignore_index' self)
                  index file image label Hop);
       apply finish_ok; exact Hm
      |reflexivity..].
  - apply CityScapes_getitem_inv in Hs as (file & image & label & Hop & Hfin).
    apply finish_inv in Hfin as (m & Hm & ->).
    eexists. split; [|split; [|split]];
      [rewrite (CityScapes_getitem_opened f32_of_byte isub encode_segmap' w g
                  (CityScapes_with_codec ssl' class_mapping' ignore_index' self)
                  index file image label Hop);
       apply finish_ok; exact Hm
      |reflexivity..].
Qed.

End CodecFrame.

Section ClassesAndMain.

Context {float32 scalar RNG : Type}.
Variable f32_of_byte : Z -> float32.
Variable isub : float32 -> scalar -> float32.
Variable encode_segmap : ndarray2 -> gmap Z Z -> Z -> ndarray2.

(** X12.  A [CityScapes] dataset of the train set that is not in ssl mode
    serves every index as a [GTA5] dataset with the same fields does: the
    same sample or the same exception. *)
Theorem CityScapes_train_as_GTA5 (w : World) (g : RNG) (self : CityScapes)
    (index : Z) :
  contains "train" (cs_set self) = true ->
  truthy (cs_ssl self) = false ->
  CityScapes_getitem f32_of_byte isub encode_segmap w g self index
  = GTA5_getitem f32_of_byte isub encode_segmap w g (as_GTA5 self) index.
Proof.
  intros Hset Hssl. unfold CityScapes_getitem, GTA5_getitem. simpl.
  destruct (py_index (cs_files self) index) as [file|e]; simpl; [|done].
  destruct (rgb_pictures w (fe_image file)) as [image|]; simpl; [|done].
  destruct (label_pictures w (fe_label file)) as [label|]; simpl; [|done].
  destruct (apply_transform (cs_transform self) g image label) as [image' label'].
  by rewrite Hset, Hssl.
Qed.

Lemma CityScapes_init_val (w : World) (root : string) (mean : list scalar)
    (crop : size_arg) (mi : option Z) (ign : Z) (ssl : pyval)
    (self : CityScapes (RNG:=RNG)) :
  CityScapes_init w root mean crop None false mi ign ssl = Ok self ->
  ∃ lines ids info cm,
    text_lines w (path_join root "val.txt") = Some lines ∧
    rmapM cs_img_id lines = Ok ids ∧
    json_docs w "./data/cityscapes/info.json" = Some info ∧
    info !! "label2train" = Some cm ∧
    self = {| cs_root := root; cs_mean := mean; cs_crop_size := crop;
              cs_transform := None; cs_train := false; cs_ignore_index := ign;
              cs_files :=
                (fun name =>
                   {| fe_image := path_join root "images/" +:+ name +:+ "_leftImg8bit.png";
                      fe_label := path_join root "labels/" +:+ name
                                  +:+ "_gtFine_labelIds.png";
                      fe_name := name |}) <$> ids;
              cs_set := "val"; cs_ssl := ssl;
              cs_image_dir := path_join root "images/";
              cs_label_dir := path_join root "labels/";
              cs_img_ids := ids; cs_info := info; cs_class_mapping := cm |}.
Proof.
  unfold CityScapes_init.
  destruct (text_lines w _) as [lines|] eqn:Hlines; simpl; [|done].
  destruct (rmapM _ lines) as [ids|e] eqn:Hids; simpl; [|done].
  destruct (json_docs w _) as [info|] eqn:Hinfo; simpl; [|done].
  destruct (info !! "label2train") as [cm|] eqn:Hcm; simpl; [|done].
  intros [= <-]. by exists lines, ids, info, cm.
Qed.

(** X13.  The loader that [main] hands to [train] for the target domain is
    its validation loader: the [CityScapes] dataset of "val.txt", not
    shuffled.  That dataset has no transform and does not crop, so a
    sample has the size of the picture file and holds all its pixels.  The
    options [is_train], [use_st], [mean_prep] and [crop_size_target] change
    neither the source loader nor any sample of the target loader. *)
Theorem main_target_is_val_set (w : World) (transform : transform_t (RNG:=RNG))
    (args : Main.Options) (L : Main.Loaders) :
  Main.main_loaders w transform args = Ok L ->
  Main.target_train_loader L = Main.val_loader L ∧
  Main.dl_shuffle (Main.val_loader L) = false ∧
  (∃ lines,
     text_lines w (path_join (Main.target_dataroot args) "val.txt") = Some lines ∧
     CityScapes_len (Main.dl_dataset (Main.target_train_loader L)) = length lines) ∧
  (∀ w' (g : RNG) index (s : Sample),
     CityScapes_getitem f32_of_byte isub encode_segmap w' g
       (Main.dl_dataset (Main.target_train_loader L)) index = Ok s ->
     ∃ file image label m,
       opened w' (cs_files (Main.dl_dataset (Main.target_train_loader L))) index
         file image label ∧
       broadcast3 (Main.mean args) = Ok m ∧
       s_image s = photometric f32_of_byte isub m image ∧
       s_size s = (pic_height image, pic_width image, 3%nat)) ∧
  (∀ is_train use_st mean_prep crop_size_target,
     ∃ L' : Main.Loaders,
       Main.main_loaders w transform
         (Main.with_options is_train use_st mean_prep crop_size_target args) = Ok L' ∧
       Main.source_train_loader L' = Main.source_train_loader L ∧
       Main.target_train_loader L' = Main.val_loader L' ∧
       ∀ w' (g : RNG) index,
         CityScapes_getitem f32_of_byte isub encode_segmap w' g
           (Main.dl_dataset (Main.target_train_loader L')) index
         = CityScapes_getitem f32_of_byte isub encode_segmap w' g
             (Main.dl_dataset (Main.target_train_loader L)) index).
Proof.
  intros Hmain. unfold Main.main_loaders in Hmain.
  destruct (GTA5_init w _ _ _ _ _ _) as [gta|e] eqn:Hgta; simpl in Hmain; [|done].
  destruct (CityScapes_init w _ _ _ _ _ _ _ _) as [city|e] eqn:Hcity;
    simpl in Hmain; [|done].
  assert (L = {| Main.source_train_loader :=
                   {| Main.dl_dataset := gta; Main.dl_batch_size := Main.batch_size args;
                      Main.dl_shuffle := true |};
                 Main.target_train_loader :=
                   {| Main.dl_dataset := city;
                      Main.dl_batch_size := Main.batch_size_val args;
                      Main.dl_shuffle := false |};
                 Main.val_loader :=
                   {| Main.dl_dataset := city;
                      Main.dl_batch_size := Main.batch_size_val args;
                      Main.dl_shuffle := false |} |}) as ->.
  { destruct (Main.is_train args); by injection Hmain as <-. }
  clear Hmain. simpl.
  pose proof (CityScapes_init_val _ _ _ _ _ _ _ _ Hcity)
    as (lines & ids & info & cm & Hlines & Hids & Hinfo & Hcm & Hself).
  split; [done|]. split; [done|]. split; [|split].
  - exists lines. split; [done|]. rewrite Hself. unfold CityScapes_len. simpl.
    rewrite length_fmap. by eapply rmapM_length.
  - intros w' g index s Hs.
    apply CityScapes_getitem_inv in Hs as (file & image & label & Hop & Hfin).
    apply finish_inv in Hfin as (m & Hm & ->).
    exists file, image, label, m. split; [done|].
    rewrite Hself in Hm |- *. simpl in *. done.
  - intros is_train use_st mean_prep crop_size_target.
    unfold Main.main_loaders. simpl. rewrite Hgta. simpl.
    unfold CityScapes_init. rewrite Hlines. simpl. rewrite Hids. simpl.
    rewrite Hinfo. simpl. rewrite Hcm. simpl.
    eexists. split; [by destruct is_train|]. simpl.
    split; [done|]. split; [done|].
    intros w' g index. by rewrite Hself.
Qed.

End ClassesAndMain.

(** ** These properties on the small world *)

Lemma GTA5_index_entries_witness :
  ∃ name rest,
    ("00002.png" +:+ Fixture.nl)%string = name +:+ rest ∧
    count_char "." name = 0%nat ∧
    (rest = "" ∨ ∃ r, rest = String "." r) ∧
    gta5_img_ids Fixture.gta5 !! 1%nat = Some name ∧
    gta5_files Fixture.gta5 !! 1%nat =
      Some {| fe_image := path_join "gta" "images/" +:+ name +:+ ".png";
              fe_label := path_join "gta" "labels/" +:+ name +:+ ".png";
              fe_name := name |}.
Proof.
  apply (GTA5_index_entries Fixture.world "gta" Fixture.mean (SizePair 2 2)
           (Some Fixture.mirror) None 255 Fixture.gta5
           [("00001.png" +:+ Fixture.nl)%string; ("00002.png" +:+ Fixture.nl)%string]);
    reflexivity.
Defined.

Lemma CityScapes_init_manifest_witness :
  CityScapes_init (RNG:=unit) Fixture.world "bad" Fixture.mean (SizePair 2 2)
    None false None 255 PyNone = Raise IndexError.
Proof.
  apply (proj1 (CityScapes_init_manifest Fixture.world "bad" Fixture.mean (SizePair 2 2)
                  None false None 255 PyNone [("bonn" +:+ Fixture.nl)%string] eq_refl)).
  apply Exists_cons_hd. vm_compute. lia.
Defined.

Lemma GTA5_init_errors_witness :
  GTA5_init (RNG:=unit) Fixture.world "nowhere" Fixture.mean (SizePair 2 2)
    None None 255 = Raise FileNotFoundError ∧
  ∃ self : GTA5,
    GTA5_init (RNG:=unit) Fixture.world "gta" Fixture.mean (SizePair 2 2)
      None None 255 = Ok self ∧
    length (gta5_files self) = 2%nat ∧
    gta5_class_mapping self = LabelCodec.map3 ∧
    gta5_crop_size self = SizePair 2 2 ∧ gta5_transform self = None ∧
    gta5_mean self = Fixture.mean ∧ gta5_ignore_index self = 255.
Proof.
  split.
  - apply (proj1 (GTA5_init_errors Fixture.world "nowhere" Fixture.mean (SizePair 2 2)
                    None None 255)).
    reflexivity.
  - apply (proj2 (proj2 (proj2 (GTA5_init_errors Fixture.world "gta" Fixture.mean
                                  (SizePair 2 2) None None 255)))
             [("00001.png" +:+ Fixture.nl)%string; ("00002.png" +:+ Fixture.nl)%string]
             Fixture.info LabelCodec.map3); reflexivity.
Defined.

Lemma sample_name_from_manifest_witness :
  ∃ s, Fixture.gta5_getitem Fixture.gta5 (-1) = Ok s ∧
       ∃ line,
         py_index [("00001.png" +:+ Fixture.nl)%string; ("00002.png" +:+ Fixture.nl)%string]
           (-1) = Ok line ∧
         py_index (str_split "." line) 0 = Ok (s_name s).
Proof.
  eexists. split; [reflexivity|].
  apply (proj1 (sample_name_from_manifest Fixture.of_byte Fixture.sub
                  Fixture.encode_array Fixture.world tt "gta" Fixture.mean (SizePair 2 2)
                  (Some Fixture.mirror) None 255) Fixture.gta5 _ (-1));
    reflexivity.
Defined.

Lemma root_trailing_slash_witness :
  ∃ self' : GTA5,
    GTA5_init Fixture.world "gta/" Fixture.mean (SizePair 2 2) (Some Fixture.mirror)
      None 255 = Ok self' ∧
    gta5_files self' = gta5_files Fixture.gta5 ∧
    ∀ w' (g : unit) index,
      GTA5_getitem Fixture.of_byte Fixture.sub Fixture.encode_array w' g self' index
      = GTA5_getitem Fixture.of_byte Fixture.sub Fixture.encode_array w' g
          Fixture.gta5 index.
Proof.
  apply (proj1 (root_trailing_slash Fixture.of_byte Fixture.sub Fixture.encode_array
                  Fixture.world "gta" Fixture.mean (SizePair 2 2) (Some Fixture.mirror)
                  None 255 ltac:(discriminate) eq_refl)).
  reflexivity.
Defined.


Lemma getitem_errors_witness :
  CityScapes_getitem Fixture.of_byte Fixture.sub Fixture.encode_array
    Fixture.world_without_labels tt (Fixture.cityscapes_val (PyBool true)) 0
  = Raise FileNotFoundError.
Proof.
  destruct (proj2 (getitem_errors Fixture.of_byte Fixture.sub Fixture.encode_array
                     Fixture.world_without_labels tt)
              (Fixture.cityscapes_val (PyBool true)) 0
              {| fe_image := "city/images/bonn_000001_000019_leftImg8bit.png";
                 fe_label := "city/labels/bonn_000001_000019_gtFine_labelIds.png";
                 fe_name := "bonn_000001_000019" |} eq_refl) as (_ & Hlabel & _).
  apply (Hlabel (picture_of Fixture.picture4)); reflexivity.
Defined.

Lemma image_free_of_codec_witness :
  ∃ s s',
    Fixture.gta5_getitem Fixture.gta5 0 = Ok s ∧
    GTA5_getitem Fixture.of_byte Fixture.sub Fixture.blank_codec Fixture.world tt
      (GTA5_with_codec ∅ 0 Fixture.gta5) 0 = Ok s' ∧
    s_label s' ≠ s_label s ∧
    s_image s' = s_image s ∧ s_size s' = s_size s ∧ s_name s' = s_name s.
Proof.
  eexists.
  destruct (proj1 (image_free_of_codec Fixture.of_byte Fixture.sub Fixture.encode_array
                     Fixture.blank_codec Fixture.world tt PyNone ∅ 0)
              Fixture.gta5 0 _ eq_refl) as (s' & Hs' & Hsame).
  exists s'. split; [reflexivity|]. split; [exact Hs'|]. split; [|exact Hsame].
  vm_compute in Hs'. injection Hs' as <-. discriminate.
Defined.

Lemma CityScapes_train_as_GTA5_witness :
  Fixture.cityscapes_getitem (Fixture.cityscapes_train PyNone) 0
  = Fixture.gta5_getitem (as_GTA5 (Fixture.cityscapes_train PyNone)) 0.
Proof.
  apply (CityScapes_train_as_GTA5 Fixture.of_byte Fixture.sub Fixture.encode_array
           Fixture.world tt (Fixture.cityscapes_train PyNone) 0); reflexivity.
Defined.

Lemma main_target_is_val_set_witness :
  ∃ L, Main.main_loaders Fixture.world Fixture.mirror
         (Fixture.args true false (SizePair 2 2)) = Ok L ∧
       Main.target_train_loader L = Main.val_loader L ∧
       cs_set (Main.dl_dataset (Main.target_train_loader L)) = "val" ∧
       ∃ L',
         Main.main_loaders Fixture.world Fixture.mirror
           (Main.with_options false true [1; 2; 3] (SizePair 1 1)
              (Fixture.args true false (SizePair 2 2))) = Ok L' ∧
         Main.source_train_loader L' = Main.source_train_loader L ∧
         Main.target_train_loader L' = Main.val_loader L' ∧
         ∀ w' (g : unit) index,
           CityScapes_getitem Fixture.of_byte Fixture.sub Fixture.encode_array w' g
             (Main.dl_dataset (Main.target_train_loader L')) index
           = CityScapes_getitem Fixture.of_byte Fixture.sub Fixture.encode_array w' g
               (Main.dl_dataset (Main.target_train_loader L)) index.
Proof.
  eexists. split; [reflexivity|].
  destruct (main_target_is_val_set Fixture.of_byte Fixture.sub Fixture.encode_array
              Fixture.world Fixture.mirror (Fixture.args true false (SizePair 2 2))
              _ eq_refl) as (Hsame & _ & _ & _ & Hopts).
  split; [exact Hsame|]. split; [reflexivity|].
  exact (Hopts false true [1; 2; 3] (SizePair 1 1)).
Defined.
